(** * project_scanner: a shallow embedding of [src/project_scanner.py]

    The scanner walks a directory tree, filters the entries with
    [should_skip_path] and an extension allow-list, and concatenates the
    text of the surviving files into one string, after a header built from
    three Git queries.

    Conventions of the embedding.
    - A Python [str] is a Rocq [string] holding its UTF-8 encoding; a
      [bytes] value is a [string] too.  [lower] and [strip] act on ASCII
      letters and ASCII white space; the Unicode case mapping and Unicode
      white space outside ASCII are not modelled.
    - The file system is a finite tree that does not change during a scan.
      Enumeration ([rglob]), [is_file] and the console ([print]) are taken
      to return normally; [open] and [read] may raise.
    - The module-level constants [FILE_TYPES], [SKIP_DIRS], [SKIP_FILES] and
      [MAX_FILE_SIZE] are read from the module's globals when a function
      runs; they are the fields of a record [globals] that the functions
      take as an argument, and [module_globals] holds the values the source
      assigns.
    - [subprocess.check_output(...).decode('utf-8')] is modelled by the
      decoded text of the command's output. *)

From Stdlib Require Import String Ascii ZArith List Lia DecimalString.
From stdpp Require Import base strings gmap list.

(** ** Python strings *)

Module Str.

Definition code (c : ascii) : nat := nat_of_ascii c.

Definition between (lo hi : nat) (c : ascii) : bool :=
  (lo <=? code c)%nat && (code c <=? hi)%nat.

(** [str.lower], on the ASCII letters. *)
Definition lower_char (c : ascii) : ascii :=
  if between 65 90 c then ascii_of_nat (code c + 32) else c.

Fixpoint lower (s : string) : string :=
  match s with
  | EmptyString => EmptyString
  | String c s' => String (lower_char c) (lower s')
  end.

(** [str.isspace] on ASCII: TAB, LF, VT, FF, CR, FS, GS, RS, US, SPACE. *)
Definition isspace (c : ascii) : bool :=
  between 9 13 c || between 28 32 c.

Fixpoint lstrip_by (drop : ascii -> bool) (s : string) : string :=
  match s with
  | EmptyString => EmptyString
  | String c s' => if drop c then lstrip_by drop s' else s
  end.

Fixpoint rstrip_by (drop : ascii -> bool) (s : string) : string :=
  match s with
  | EmptyString => EmptyString
  | String c s' =>
      match rstrip_by drop s' with
      | EmptyString => if drop c then EmptyString else String c EmptyString
      | r => String c r
      end
  end.

(** [s.strip()] *)
Definition strip (s : string) : string :=
  rstrip_by isspace (lstrip_by isspace s).

Fixpoint mem_char (c : ascii) (chars : string) : bool :=
  match chars with
  | EmptyString => false
  | String d chars' => Ascii.eqb c d || mem_char c chars'
  end.

(** [s.lstrip(chars)] *)
Definition lstrip (s chars : string) : string :=
  lstrip_by (fun c => mem_char c chars) s.

(** [s.startswith(p)] *)
Definition startswith (s p : string) : bool := String.prefix p s.

Definition snoc (s : string) (c : ascii) : string :=
  s +:+ String c EmptyString.

(** [s.splitlines()]: the boundaries are LF, CR, CR LF, VT, FF, FS, GS,
    RS, NEL (U+0085), LS (U+2028) and PS (U+2029); they are not kept, and
    a final boundary opens no further line.  [cur] is the line being
    read. *)
Fixpoint splitlines_from (cur s : string) : list string :=
  match s with
  | EmptyString => match cur with EmptyString => [] | _ => [cur] end
  | String "013" (String "010" r) => cur :: splitlines_from EmptyString r
  | String "194" (String "133" r) => cur :: splitlines_from EmptyString r
  | String "226" (String "128" (String "168" r)) =>
      cur :: splitlines_from EmptyString r
  | String "226" (String "128" (String "169" r)) =>
      cur :: splitlines_from EmptyString r
  | String c r =>
      if between 10 13 c || between 28 30 c
      then cur :: splitlines_from EmptyString r
      else splitlines_from (snoc cur c) r
  end.

Definition splitlines (s : string) : list string :=
  splitlines_from EmptyString s.

(** [s.rfind(c)] for a one-character needle: the index of the last
    occurrence, [-1] when there is none. *)
Fixpoint rfind_from (c : ascii) (i : Z) (s : string) : Z :=
  match s with
  | EmptyString => (-1)%Z
  | String d s' =>
      let later := rfind_from c (i + 1) s' in
      if (0 <=? later)%Z then later
      else if Ascii.eqb c d then i else (-1)%Z
  end.

Definition rfind (s : string) (c : ascii) : Z := rfind_from c 0 s.

(** [s[i:]] for [0 <= i] *)
Fixpoint slice_from (i : nat) (s : string) : string :=
  match i, s with
  | O, _ => s
  | S _, EmptyString => EmptyString
  | S k, String _ s' => slice_from k s'
  end.

Definition len (s : string) : Z := Z.of_nat (String.length s).

(** [sep.join(l)] *)
Fixpoint join (sep : string) (l : list string) : string :=
  match l with
  | [] => EmptyString
  | [x] => x
  | x :: l' => x +:+ sep +:+ join sep l'
  end.

(** [s.split(sep)] for a one-character separator *)
Fixpoint split_from (sep : ascii) (cur s : string) : list string :=
  match s with
  | EmptyString => [cur]
  | String c s' =>
      if Ascii.eqb c sep then cur :: split_from sep EmptyString s'
      else split_from sep (snoc cur c) s'
  end.

Definition split (s : string) (sep : ascii) : list string :=
  split_from sep EmptyString s.

(** [s.replace(old, new)]: the occurrences of [old] are replaced from the
    left, without overlap.  [skip] counts the characters of the
    occurrence just replaced that are still to be passed over. *)
Fixpoint replace_from (old new : string) (skip : nat) (s : string) : string :=
  match s with
  | EmptyString => EmptyString
  | String c s' =>
      match skip with
      | S k => replace_from old new k s'
      | O =>
          if String.prefix old s
          then new +:+ replace_from old new (String.length old - 1) s'
          else String c (replace_from old new 0 s')
      end
  end.

Fixpoint intersperse (new s : string) : string :=
  match s with
  | EmptyString => new
  | String c s' => new +:+ String c (intersperse new s')
  end.

Definition replace (s old new : string) : string :=
  match old with
  | EmptyString => intersperse new s
  | _ => replace_from old new 0 s
  end.

(** [str(n)] for a non-negative integer *)
Definition of_nat (n : nat) : string :=
  NilZero.string_of_uint (Nat.to_uint n).

(** *** UTF-8 *)

Definition cont (c : ascii) : bool := between 128 191 c.

(** The length of the well-formed UTF-8 sequence that starts [s], [0]
    when there is none (Unicode, table 3-7). *)
Definition utf8_seq_len (s : string) : nat :=
  match s with
  | EmptyString => 0
  | String b0 r0 =>
      if between 0 127 b0 then 1
      else
        match r0 with
        | EmptyString => 0
        | String b1 r1 =>
            if between 194 223 b0 then (if cont b1 then 2 else 0)
            else
              match r1 with
              | EmptyString => 0
              | String b2 r2 =>
                  if between 224 239 b0 then
                    if (if between 224 224 b0 then between 160 191 b1
                        else if between 237 237 b0 then between 128 159 b1
                        else cont b1) && cont b2
                    then 3 else 0
                  else
                    match r2 with
                    | EmptyString => 0
                    | String b3 _ =>
                        if between 240 244 b0 then
                          if (if between 240 240 b0 then between 144 191 b1
                              else if between 244 244 b0
                                   then between 128 143 b1
                              else cont b1) && cont b2 && cont b3
                          then 4 else 0
                        else 0
                    end
              end
        end
  end.

(** [bytes.decode('utf-8', errors='ignore')]: the bytes that belong to no
    well-formed sequence are dropped; it never raises.  [keep] counts the
    bytes of the current sequence still to be copied. *)
Fixpoint decode_ignore_from (keep : nat) (s : string) : string :=
  match s with
  | EmptyString => EmptyString
  | String c s' =>
      match keep with
      | S k => String c (decode_ignore_from k s')
      | O =>
          match utf8_seq_len s with
          | O => decode_ignore_from 0 s'
          | S k => String c (decode_ignore_from k s')
          end
      end
  end.

Definition decode_ignore (raw : string) : string := decode_ignore_from 0 raw.

(** [bytes.decode('utf-8')] with the default, strict error policy:
    [None] stands for [UnicodeDecodeError]. *)
Fixpoint decode_strict_from (keep : nat) (s : string) : option string :=
  match s with
  | EmptyString => Some EmptyString
  | String c s' =>
      match keep with
      | S k => String c <$> decode_strict_from k s'
      | O =>
          match utf8_seq_len s with
          | O => None
          | S k => String c <$> decode_strict_from k s'
          end
      end
  end.

Definition decode_strict (raw : string) : option string :=
  decode_strict_from 0 raw.

(** Text-mode reading with [newline=None]: CR LF and CR become LF. *)
Fixpoint universal_newlines (s : string) : string :=
  match s with
  | EmptyString => EmptyString
  | String "013" (String "010" r) => String "010" (universal_newlines r)
  | String "013" r => String "010" (universal_newlines r)
  | String c r => String c (universal_newlines r)
  end.

End Str.

(** ** pathlib paths (POSIX flavour) *)

Module Path.

(** [anchor] is the root ("/" for an absolute path, empty for a relative
    one); [names] are the components below it. *)
Record t := make { anchor : string; names : list string }.

(** [path.parts] *)
Definition parts (p : t) : list string :=
  match anchor p with
  | EmptyString => names p
  | a => a :: names p
  end.

(** [path.name]: the final component, empty when there is none. *)
Definition name (p : t) : string := List.last (names p) EmptyString.

(** [path.suffix], as CPython defines it up to 3.13:
    [i = name.rfind('.')], and [name[i:]] if [0 < i < len(name) - 1],
    otherwise the empty string. *)
Definition suffix_of_name (name : string) : string :=
  let i := Str.rfind name "." in
  if (0 <? i)%Z && (i <? Str.len name - 1)%Z
  then Str.slice_from (Z.to_nat i) name
  else EmptyString.

Definition suffix (p : t) : string := suffix_of_name (name p).

(** [path / child] for a single component *)
Definition child (p : t) (n : string) : t :=
  make (anchor p) (names p ++ [n]).

(** [path / rel] for a relative path *)
Definition join (p rel : t) : t :=
  make (anchor p) (names p ++ names rel).

(** [str(path)] *)
Definition str (p : t) : string :=
  match anchor p, names p with
  | EmptyString, [] => "."
  | a, ns => a +:+ Str.join "/" ns
  end.

(** [Path(s)] *)
Definition of_str (s : string) : t :=
  let names :=
    List.filter (fun n => negb (String.eqb n "" || String.eqb n "."))
                (Str.split s "/") in
  match s with
  | String "/" (String "/" (String "/" _)) => make "/" names
  | String "/" (String "/" _) => make "//" names
  | String "/" _ => make "/" names
  | _ => make "" names
  end.

Fixpoint strip_prefix (pre l : list string) : option (list string) :=
  match pre, l with
  | [], _ => Some l
  | _ :: _, [] => None
  | a :: pre', b :: l' =>
      if String.eqb a b then strip_prefix pre' l' else None
  end.

(** [path.relative_to(other)]; [None] stands for [ValueError]. *)
Definition relative_to (p other : t) : option t :=
  if String.eqb (anchor p) (anchor other)
  then make "" <$> strip_prefix (names other) (names p)
  else None.

End Path.

(** ** The file system *)

(** What [open(path, "r", encoding="utf-8", errors="ignore")] and [f.read()]
    do on a regular file: the read returns the bytes [raw], or [open]
    raises, or [read] raises after [partial] was transferred.  The [string]
    of a failure is [str(e)] of the exception. *)
Inductive file_data :=
| Readable (raw : string)
| OpenFails (e : string)
| ReadFails (partial : string) (e : string).

(** A directory entry: a regular file, a directory with its entries in the
    order the operating system lists them, or anything else (a socket, a
    dangling link). *)
#[local] Unset Elimination Schemes.
Inductive node :=
| File (name : string) (data : file_data)
| Dir (name : string) (children : list node)
| Other (name : string).
#[local] Set Elimination Schemes.

Definition node_name (n : node) : string :=
  match n with File x _ | Dir x _ | Other x => x end.

Inductive kind := IsFile (data : file_data) | IsDir | IsOther.

Definition node_kind (n : node) : kind :=
  match n with
  | File _ d => IsFile d
  | Dir _ _ => IsDir
  | Other _ => IsOther
  end.

(** A path yielded by [rglob], with what the file system holds there. *)
Record entry := Entry { entry_path : Path.t; entry_kind : kind }.

Definition entry_of (dir : Path.t) (n : node) : entry :=
  Entry (Path.child dir (node_name n)) (node_kind n).

(** The entries below the directory node [n] of [parent]: those of [n]
    itself, then those of each of its subdirectories in turn (the order of
    the recursive wildcard of CPython up to 3.11; later versions may
    interleave them, and no property below depends on the order). *)
Fixpoint walk (parent : Path.t) (n : node) : list entry :=
  match n with
  | Dir x children =>
      let d := Path.child parent x in
      List.map (entry_of d) children ++ List.flat_map (walk d) children
  | _ => []
  end.

(** [root_path.rglob("*")] on a root directory holding [tree]. *)
Definition rglob (root : Path.t) (tree : list node) : list entry :=
  List.map (entry_of root) tree ++ List.flat_map (walk root) tree.

(** [current_path.is_file()] *)
Definition is_file (e : entry) : bool :=
  match entry_kind e with IsFile _ => true | _ => false end.

(** ** Module globals *)

Record globals := Globals {
  FILE_TYPES : gset string;
  SKIP_DIRS : gset string;
  SKIP_FILES : gset string;
  MAX_FILE_SIZE : Z
}.

Definition module_globals : globals := {|
  FILE_TYPES :=
    {[ ".py"; ".js"; ".jsx"; ".ts"; ".tsx"; ".html"; ".css";
       ".md"; ".txt"; ".json"; ".yml"; ".yaml"; ".xml"; ".csv";
       ".java"; ".c"; ".cpp"; ".h"; ".sql"; ".sh"; ".bat"; ".ps1" ]};
  SKIP_DIRS :=
    {[ ".git"; "__pycache__"; "node_modules"; "venv"; "env";
       ".venv"; "dist"; "build"; ".idea"; ".vscode"; "target";
       "bin"; "obj"; "debug"; "release" ]};
  SKIP_FILES :=
    {[ "package-lock.json"; "yarn.lock"; ".ds_store"; "thumbs.db" ]};
  MAX_FILE_SIZE := 95 * 1024 * 1024
|}.

(** ** Git queries *)

(** What [subprocess.check_output] does: it returns the command's output,
    or raises [CalledProcessError] (non-zero exit status) or
    [FileNotFoundError] (no such program). *)
Inductive completed :=
| Output (stdout : string)
| CalledProcessError
| FileNotFoundError.

Record git_queries := Git {
  git_branch : completed;      (* git branch --show-current *)
  git_rev_parse : completed;   (* git rev-parse HEAD *)
  git_status : completed       (* git status --porcelain *)
}.

Definition modified_or_untracked (line : string) : bool :=
  Str.startswith line " M" || Str.startswith line "??".

(** [get_git_info]: the first query that raises sends control to the
    [except] clause, which returns [None, None, 0]. *)
Definition get_git_info (git : git_queries)
  : option string * option string * nat :=
  match git_branch git with
  | Output out1 =>
      let branch := Str.strip out1 in
      match git_rev_parse git with
      | Output out2 =>
          let commit_id := Str.strip out2 in
          match git_status git with
          | Output status =>
              let unstaged_files :=
                length (List.filter modified_or_untracked
                                    (Str.splitlines status)) in
              (Some branch, Some commit_id, unstaged_files)
          | _ => (None, None, 0)
          end
      | _ => (None, None, 0)
      end
  | _ => (None, None, 0)
  end.

(** Truth value of an optional string: [None] and the empty string are
    false. *)
Definition truthy (x : option string) : bool :=
  match x with
  | Some (String _ _) => true
  | _ => false
  end.

(** ** The scan *)

Definition LF : string := String "010" EmptyString.

(** What the loop has appended to the buffer so far, entry by entry: the
    section of a file that was read, or the marker of a file that was not.
    The source keeps no such list; [trace] is a history variable, tied to
    [combined_code] by [combined_code_scan_run] below. *)
Inductive event :=
| FileSection (rel_path : Path.t) (code : string)
| ErrorMarker (rel_path : Path.t) (e : string).

(** The local variables of [scan_project] that the loop updates. *)
Record scan_state := State {
  combined_code : string;
  file_count : nat;
  trace : list event
}.

(** Statements that update the state and may raise. *)
Inductive outcome (A : Type) :=
| Return (a : A)
| Raise (e : string).
Arguments Return {A} a.
Arguments Raise {A} e.

Definition M (A : Type) : Type := scan_state -> outcome A * scan_state.

Definition raise {A} (e : string) : M A := fun st => (Raise e, st).

#[global] Instance M_ret : MRet M := fun A a st => (Return a, st).

#[global] Instance M_bind : MBind M := fun A B k m st =>
  match m st with
  | (Return a, st') => k a st'
  | (Raise e, st') => (Raise e, st')
  end.

(** [try: body except Exception as e: handler(e)] *)
Definition try_except (body : M unit) (handler : string -> M unit) : M unit :=
  fun st =>
    match body st with
    | (Return a, st') => (Return a, st')
    | (Raise e, st') => handler e st'
    end.

(** [combined_code += s] *)
Definition append (s : string) : M unit :=
  fun st =>
    (Return tt, State (combined_code st +:+ s) (file_count st) (trace st)).

(** [file_count += 1] *)
Definition count_file : M unit :=
  fun st => (Return tt, State (combined_code st) (S (file_count st)) (trace st)).

Definition record (ev : event) : M unit :=
  fun st =>
    (Return tt, State (combined_code st) (file_count st) (trace st ++ [ev])).

(** [open(current_path, "r", encoding="utf-8", errors="ignore")] *)
Definition open (data : file_data) : M file_data :=
  match data with
  | OpenFails e => raise e
  | _ => mret data
  end.

(** The text of a file that holds the bytes [raw]: decoded with
    [errors="ignore"], with the line ends translated. *)
Definition read_text (raw : string) : string :=
  Str.universal_newlines (Str.decode_ignore raw).

(** [f.read()] *)
Definition read (f : file_data) : M string :=
  match f with
  | Readable raw => mret (read_text raw)
  | ReadFails _ e => raise e
  | OpenFails e => raise e
  end.

Definition file_header (rel_path : Path.t) : string :=
  LF +:+ LF +:+ "# File: " +:+ Path.str rel_path +:+ LF.

Definition error_marker (rel_path : Path.t) (e : string) : string :=
  LF +:+ LF +:+ "[Error reading " +:+ Path.str rel_path +:+ ": " +:+ e +:+ "]".

(** The body of the second [try] of the loop; the [print] that ends it
    returns normally. *)
Definition read_file (rel_path : Path.t) (data : file_data) : M unit :=
  f ← open data;
  code ← read f;
  append (file_header rel_path);;
  append (code +:+ LF +:+ LF);;
  record (FileSection rel_path code);;
  count_file.

Definition read_failed (rel_path : Path.t) (e : string) : M unit :=
  append (error_marker rel_path e);;
  record (ErrorMarker rel_path e).

Section Scanner.

Variable g : globals.

(** [should_skip_path]; its first assignment, [path_str], is not used. *)
Definition should_skip_path (path : Path.t) : bool :=
  if existsb (fun part => bool_decide (Str.lower part ∈ SKIP_DIRS g))
             (Path.parts path)
  then true
  else if bool_decide (Str.lower (Path.name path) ∈ SKIP_FILES g)
  then true
  else false.

(** The first [try] of the loop: [relative_to], and on [ValueError] the
    path rebuilt from the strings. *)
Definition rel_path_of (current_path root_path : Path.t) : Path.t :=
  match Path.relative_to current_path root_path with
  | Some rel => rel
  | None =>
      Path.of_str
        (Str.lstrip
           (Str.replace (Path.str current_path) (Path.str root_path) "")
           "\/")
  end.

(** One iteration of [for current_path in root_path.rglob("*")]. *)
Definition visit (root_path : Path.t) (st : scan_state) (current : entry)
  : scan_state :=
  let current_path := entry_path current in
  if should_skip_path current_path then st
  else
    match entry_kind current with
    | IsFile data =>
        let ext := Str.lower (Path.suffix current_path) in
        if bool_decide (ext ∈ FILE_TYPES g) then
          let rel_path := rel_path_of current_path root_path in
          snd (try_except (read_file rel_path data)
                          (read_failed rel_path) st)
        else st
    | _ => st
    end.

Definition scan_loop (root_path : Path.t) (entries : list entry)
                     (st : scan_state) : scan_state :=
  List.fold_left (visit root_path) entries st.

End Scanner.

Definition git_lines (branch commit_id : option string) (unstaged_files : nat)
  : string :=
  if truthy branch && truthy commit_id then
    "Git Branch: " +:+ default "" branch +:+ LF
    +:+ "Git Commit ID: " +:+ default "" commit_id +:+ LF
    +:+ (if (0 <? unstaged_files)%nat
         then "🚨 Unstaged Changes: " +:+ Str.of_nat unstaged_files
              +:+ " files" +:+ LF
         else "")
  else "⚠️ Not a Git repository" +:+ LF.

Definition context_header (timestamp : string) (root_path : Path.t)
                          (git : git_queries) : string :=
  let '(branch, commit_id, unstaged_files) := get_git_info git in
  "# 🚀 PROJECT CODE CONTEXT - " +:+ timestamp +:+ LF +:+ LF
  +:+ "Directory: " +:+ Path.str root_path +:+ LF
  +:+ git_lines branch commit_id unstaged_files.

Definition summary (file_count : nat) : string :=
  LF +:+ LF +:+ "📊 Total files processed: " +:+ Str.of_nat file_count
  +:+ LF.

(** What a run of [scan_project] finds: the resolved [directory], the
    entries below it, the answers of Git and the formatted time. *)
Record world := World {
  root_path : Path.t;
  tree : list node;
  git : git_queries;
  timestamp : string
}.

(** The state of [scan_project] when the loop is over. *)
Definition scan_run (g : globals) (w : world) : scan_state :=
  let st0 := State "" 0 [] in
  let st1 :=
    State (combined_code st0
           +:+ context_header (timestamp w) (root_path w) (git w) +:+ LF)
          (file_count st0) (trace st0) in
  scan_loop g (root_path w) (rglob (root_path w) (tree w)) st1.

(** [scan_project] *)
Definition scan_project (g : globals) (w : world) : string :=
  let st := scan_run g w in
  combined_code st +:+ summary (file_count st).

(** The ScanResult of the specification: the files whose section is in
    the buffer, in order, with their relative path and text. *)
Definition sections (tr : list event) : list (Path.t * string) :=
  List.flat_map (fun ev => match ev with
                           | FileSection rel code => [(rel, code)]
                           | ErrorMarker _ _ => []
                           end) tr.

Definition scan_result (g : globals) (w : world) : list (Path.t * string) :=
  sections (trace (scan_run g w)).

(** ** Definitions used in the statements *)

(** A path below [root]: [root / rel]. *)
Definition below (root : Path.t) (rel : list string) : Path.t :=
  Path.make (Path.anchor root) (Path.names root ++ rel).

(** Induction on a node with the hypothesis for every child. *)
Fixpoint node_ind' (P : node -> Prop)
    (HF : forall x d, P (File x d))
    (HD : forall x children, Forall P children -> P (Dir x children))
    (HO : forall x, P (Other x)) (n : node) : P n :=
  match n with
  | File x d => HF x d
  | Dir x children =>
      HD x children
         ((fix all (l : list node) : Forall P l :=
             match l with
             | [] => List.Forall_nil P
             | m :: l' => List.Forall_cons P m l' (node_ind' P HF HD HO m) (all l')
             end) children)
  | Other x => HO x
  end.

(** A qualifying file: not skipped, a regular file, extension allowed. *)
Definition qualifies (g : globals) (e : entry) : bool :=
  negb (should_skip_path g (entry_path e))
  && is_file e
  && bool_decide (Str.lower (Path.suffix (entry_path e)) ∈ FILE_TYPES g).

(** What a qualifying file contributes. *)
Definition event_of (rel_path : Path.t) (data : file_data) : event :=
  match data with
  | Readable raw => FileSection rel_path (read_text raw)
  | OpenFails e | ReadFails _ e => ErrorMarker rel_path e
  end.

Definition render (ev : event) : string :=
  match ev with
  | FileSection rel_path code => file_header rel_path +:+ code +:+ LF +:+ LF
  | ErrorMarker rel_path e => error_marker rel_path e
  end.

Definition counted (ev : event) : nat :=
  match ev with FileSection _ _ => 1 | ErrorMarker _ _ => 0 end.

Definition emit (st : scan_state) (ev : event) : scan_state :=
  State (combined_code st +:+ render ev)
        (file_count st + counted ev)
        (trace st ++ [ev]).

Definition events_of (g : globals) (root : Path.t) (e : entry) : list event :=
  match entry_kind e with
  | IsFile data =>
      if qualifies g e
      then [event_of (rel_path_of (entry_path e) root) data]
      else []
  | _ => []
  end.

Fixpoint render_all (evs : list event) : string :=
  match evs with
  | [] => ""
  | ev :: evs' => render ev +:+ render_all evs'
  end.

(** A sample run. *)
Definition sample_tree : list node :=
  [ File "a.py" (Readable "x");
    File "b.md" (Readable "y");
    Dir "node_modules" [ File "z.js" (Readable "zz") ];
    Dir "src"
      [ File "Main.PY" (Readable ("l1" +:+ String "013" LF +:+ "l2"));
        File "bad.txt" (ReadFails "par" "[Errno 5] Input/output error");
        File "Package-Lock.JSON" (Readable "{}");
        File "notes" (Readable "n");
        Dir "Build" [ File "q.c" (Readable "q") ] ] ].

Definition sample_git : git_queries :=
  Git (Output ("main" +:+ LF))
      (Output ("0a1b2c3" +:+ LF))
      (Output (" M a.py" +:+ LF +:+ "?? b.md" +:+ LF +:+ "A  c.py" +:+ LF)).

Definition sample_world : world :=
  World (Path.make "/" ["home"; "u"; "proj"]) sample_tree sample_git
        "2024-01-01 00:00:00".

(** [dir_at tree rel children]: below a directory that holds [tree], the
    relative path [rel] leads to a directory whose entries are
    [children]. *)
Inductive dir_at : list node -> list string -> list node -> Prop :=
| dir_here tree x children :
    In (Dir x children) tree -> dir_at tree [x] children
| dir_below tree x sub rel children :
    In (Dir x sub) tree -> dir_at sub rel children ->
    dir_at tree (x :: rel) children.

(** Git in a work tree whose HEAD is detached: the three queries succeed,
    and [git branch --show-current] prints nothing. *)
Definition detached_head : git_queries :=
  Git (Output "") (Output ("0a1b2c3" +:+ LF)) (Output "").

Definition failed (q : completed) : bool :=
  match q with Output _ => false | _ => true end.

Definition with_max_file_size (m : Z) (g : globals) : globals :=
  Globals (FILE_TYPES g) (SKIP_DIRS g) (SKIP_FILES g) m.

(** The message of the exception that [open] or [read] raises on the
    file, if any. *)
Definition raises (data : file_data) : option string :=
  match data with
  | Readable _ => None
  | OpenFails e | ReadFails _ e => Some e
  end.


Definition build_world : world :=
  World (Path.make "/" ["home"; "u"; "Build"; "proj"]) sample_tree sample_git
        "2024-01-01 00:00:00".

(** ** Definitions for the further properties *)

(** [node_at tree rel n]: below a directory that holds [tree], the node [n]
    lies at the relative path [rel]. *)
Inductive node_at : list node -> list string -> node -> Prop :=
| node_here tree n :
    In n tree -> node_at tree [node_name n] n
| node_below tree x sub rel n :
    In (Dir x sub) tree -> node_at sub rel n ->
    node_at tree (x :: rel) n.


Definition CR : ascii := "013"%char.

(** ** The entry point *)

(** [is_windows], given what [platform.system()] returns. *)
Definition is_windows (system : string) : bool :=
  String.eqb (Str.lower system) "windows".






(** The first lines of the header, up to the [Directory] line. *)
Definition header_start (ts : string) (root : Path.t) : string :=
  "# 🚀 PROJECT CODE CONTEXT - " +:+ ts +:+ LF +:+ LF
  +:+ "Directory: " +:+ Path.str root +:+ LF.

(** A tree with a directory that bears the name of a skipped file. *)
Definition lock_world : world :=
  World (Path.make "/" ["r"])
        [ Dir "yarn.lock" [ File "a.py" (Readable "x") ] ]
        sample_git "2024-01-01 00:00:00".

(** * Properties *)

(** ** Evaluation *)

Example scan_two_files :
  scan_project module_globals
    (World (Path.make "/" ["r"])
           [File "a.py" (Readable "x"); File "b.md" (Readable "y")]
           (Git FileNotFoundError FileNotFoundError FileNotFoundError)
           "2024-01-01 00:00:00")
  = "# 🚀 PROJECT CODE CONTEXT - 2024-01-01 00:00:00" +:+ LF +:+ LF
    +:+ "Directory: /r" +:+ LF
    +:+ "⚠️ Not a Git repository" +:+ LF +:+ LF
    +:+ LF +:+ LF +:+ "# File: a.py" +:+ LF +:+ "x" +:+ LF +:+ LF
    +:+ LF +:+ LF +:+ "# File: b.md" +:+ LF +:+ "y" +:+ LF +:+ LF
    +:+ LF +:+ LF +:+ "📊 Total files processed: 2" +:+ LF.
Proof. reflexivity. Qed.

Example scan_result_sample :
  scan_result module_globals sample_world
  = [ (Path.make "" ["a.py"], "x");
      (Path.make "" ["b.md"], "y");
      (Path.make "" ["src"; "Main.PY"], "l1" +:+ LF +:+ "l2") ]
  /\ file_count (scan_run module_globals sample_world) = 3.
Proof. split; reflexivity. Qed.

Example lower_mixed : Str.lower "Package-Lock.JSON" = "package-lock.json".
Proof. reflexivity. Qed.

Example strip_branch : Str.strip (" main" +:+ String "010" "") = "main".
Proof. reflexivity. Qed.

Example splitlines_status :
  Str.splitlines (" M a.py" +:+ String "010" ("?? b" +:+ String "010" ""))
  = [" M a.py"; "?? b"].
Proof. reflexivity. Qed.

Example replace_root : Str.replace "/r/x/r/y" "/r" "" = "/x/y".
Proof. reflexivity. Qed.

Example decode_drops_ff :
  Str.decode_ignore (String "255" "ab") = "ab"
  /\ Str.decode_strict (String "255" "ab") = None.
Proof. split; reflexivity. Qed.

Example suffix_py : Path.suffix (Path.make "/" ["r"; "Main.PY"]) = ".PY".
Proof. reflexivity. Qed.

Example suffix_hidden : Path.suffix (Path.make "/" ["r"; ".bashrc"]) = "".
Proof. reflexivity. Qed.

Example suffix_trailing_dot : Path.suffix (Path.make "/" ["r"; "a."]) = "".
Proof. reflexivity. Qed.

Example suffix_last_of_two : Path.suffix (Path.make "" ["a.tar.gz"]) = ".gz".
Proof. reflexivity. Qed.

Example str_abs : Path.str (Path.make "/" ["home"; "u"]) = "/home/u".
Proof. reflexivity. Qed.

Example of_str_rel : Path.of_str "a//./b.py" = Path.make "" ["a"; "b.py"].
Proof. reflexivity. Qed.

(** ** Strings and paths *)

Lemma append_cons (x : ascii) (a b : string) :
  String x a +:+ b = String x (a +:+ b).
Proof. reflexivity. Qed.

Lemma append_assoc (a b c : string) : (a +:+ b) +:+ c = a +:+ b +:+ c.
Proof.
  induction a as [|x a IH]; [reflexivity|].
  now rewrite !append_cons, IH.
Qed.

Lemma append_empty_r (a : string) : a +:+ "" = a.
Proof.
  induction a as [|x a IH]; [reflexivity|].
  now rewrite append_cons, IH.
Qed.


Lemma strip_prefix_app (pre rel : list string) :
  Path.strip_prefix pre (pre ++ rel) = Some rel.
Proof.
  induction pre as [|a pre IH]; simpl; [reflexivity|].
  now rewrite String.eqb_refl.
Qed.

Lemma strip_prefix_Some (pre l rel : list string) :
  Path.strip_prefix pre l = Some rel -> l = pre ++ rel.
Proof.
  revert l. induction pre as [|a pre IH]; intros [|b l]; simpl;
    try congruence.
  destruct (String.eqb_spec a b) as [->|]; [|discriminate].
  intros H. now rewrite (IH _ H).
Qed.

Lemma relative_to_below (root : Path.t) (rel : list string) :
  Path.relative_to (below root rel) root = Some (Path.make "" rel).
Proof.
  unfold Path.relative_to, below; simpl.
  now rewrite String.eqb_refl, strip_prefix_app.
Qed.

Lemma child_below (root : Path.t) (rel : list string) (x : string) :
  Path.child (below root rel) x = below root (rel ++ [x]).
Proof. unfold Path.child, below; simpl. now rewrite <- app_assoc. Qed.

Lemma child_root (root : Path.t) (x : string) :
  Path.child root x = below root [x].
Proof. reflexivity. Qed.

Lemma parts_below (root : Path.t) (rel : list string) :
  Path.parts (below root rel) = Path.parts root ++ rel.
Proof. unfold Path.parts, below; simpl. now destruct (Path.anchor root). Qed.

Lemma name_below (root : Path.t) (rel : list string) :
  rel <> [] -> Path.name (below root rel) = Path.name (Path.make "" rel).
Proof.
  intros Hrel. unfold Path.name, below; simpl.
  destruct (exists_last Hrel) as (l & x & ->).
  now rewrite app_assoc, !last_last.
Qed.

Lemma suffix_below (root : Path.t) (rel : list string) :
  rel <> [] -> Path.suffix (below root rel) = Path.suffix (Path.make "" rel).
Proof. intros H. unfold Path.suffix. now rewrite name_below. Qed.

(** ** Enumeration *)

Lemma walk_dir (parent : Path.t) (x : string) (children : list node) :
  walk parent (Dir x children) = rglob (Path.child parent x) children.
Proof. reflexivity. Qed.

(** Every path [rglob] yields lies strictly below the root. *)
Lemma walk_below (n : node) :
  forall (root : Path.t) (pre : list string) (e : entry),
    In e (walk (below root pre) n) ->
    exists rel, rel <> [] /\ entry_path e = below root (pre ++ rel).
Proof.
  induction n as [x d|x children IH|x] using node_ind'; simpl;
    intros root pre e He; try contradiction.
  rewrite List.Forall_forall in IH.
  apply in_app_or in He as [He|He].
  - apply in_map_iff in He as (m & <- & _).
    exists [x; node_name m]. split; [discriminate|].
    unfold entry_of; simpl. now rewrite !child_below, <- app_assoc.
  - apply in_flat_map in He as (m & Hm & He).
    rewrite child_below in He.
    destruct (IH m Hm root (pre ++ [x]) e He) as (rel & Hrel & ->).
    exists (x :: rel). split; [discriminate|].
    now rewrite <- app_assoc.
Qed.

Lemma rglob_below (root : Path.t) (tree : list node) (e : entry) :
  In e (rglob root tree) ->
  exists rel, rel <> [] /\ entry_path e = below root rel.
Proof.
  unfold rglob. intros He. apply in_app_or in He as [He|He].
  - apply in_map_iff in He as (m & <- & _).
    exists [node_name m]. split; [discriminate | reflexivity].
  - apply in_flat_map in He as (m & Hm & He).
    assert (Hroot : root = below root []).
    { unfold below. rewrite app_nil_r. now destruct root. }
    rewrite Hroot in He.
    destruct (walk_below m root [] e He) as (rel & Hrel & ->).
    now exists rel.
Qed.

(** ** The skip predicate *)

Lemma should_skip_path_true (g : globals) (p : Path.t) :
  should_skip_path g p = true <->
  (exists part, In part (Path.parts p) /\ Str.lower part ∈ SKIP_DIRS g)
  \/ Str.lower (Path.name p) ∈ SKIP_FILES g.
Proof.
  unfold should_skip_path.
  destruct (existsb _ _) eqn:Hdirs.
  - split; [intros _; left | reflexivity].
    apply existsb_exists in Hdirs as (part & Hin & Hpart).
    exists part. split; [assumption|]. now apply bool_decide_eq_true in Hpart.
  - case_bool_decide as Hfile.
    + split; [now right | reflexivity].
    + split; [discriminate|].
      intros [(part & Hin & Hpart)|H]; [|contradiction].
      assert (existsb (fun part => bool_decide (Str.lower part ∈ SKIP_DIRS g))
                      (Path.parts p) = true) as Hex; [|congruence].
      apply existsb_exists. exists part.
      split; [assumption|]. now apply bool_decide_eq_true.
Qed.

Lemma should_skip_path_false (g : globals) (p : Path.t) :
  should_skip_path g p = false <->
  (forall part, In part (Path.parts p) -> Str.lower part ∉ SKIP_DIRS g)
  /\ Str.lower (Path.name p) ∉ SKIP_FILES g.
Proof.
  split.
  - intros Hskip. split.
    + intros part Hin Hpart.
      assert (should_skip_path g p = true); [|congruence].
      apply should_skip_path_true. left. now exists part.
    + intros Hname.
      assert (should_skip_path g p = true); [|congruence].
      apply should_skip_path_true. now right.
  - intros [Hdirs Hfile].
    destruct (should_skip_path g p) eqn:Hskip; [|reflexivity].
    apply should_skip_path_true in Hskip as [(part & Hin & Hpart)|H].
    + now destruct (Hdirs part Hin).
    + contradiction.
Qed.

(** A directory of the skip set anywhere on the path skips the path. *)
Lemma skip_dir_component (g : globals) (root : Path.t)
      (pre : list string) (d : string) (rest : list string) :
  Str.lower d ∈ SKIP_DIRS g ->
  should_skip_path g (below root (pre ++ d :: rest)) = true.
Proof.
  intros Hd. apply should_skip_path_true. left. exists d.
  split; [|assumption].
  rewrite parts_below. apply in_or_app. right.
  apply in_or_app. right. now left.
Qed.

(** ** One iteration *)

(** The body of the [try] raises exactly when [open] or [read] does, and
    then it has not touched the state. *)
Lemma read_file_raises (rel : Path.t) (data : file_data) (st : scan_state) :
  read_file rel data st =
  match data with
  | Readable raw =>
      (Return tt,
       State ((combined_code st +:+ file_header rel)
              +:+ read_text raw +:+ LF +:+ LF)
             (S (file_count st))
             (trace st ++ [FileSection rel (read_text raw)]))
  | OpenFails e | ReadFails _ e => (Raise e, st)
  end.
Proof. destruct data; reflexivity. Qed.

Lemma try_read_file (rel : Path.t) (data : file_data) (st : scan_state) :
  snd (try_except (read_file rel data) (read_failed rel) st)
  = emit st (event_of rel data).
Proof.
  unfold try_except. rewrite read_file_raises.
  destruct data; unfold emit; simpl.
  - now rewrite append_assoc, Nat.add_1_r.
  - now rewrite Nat.add_0_r.
  - now rewrite Nat.add_0_r.
Qed.

Lemma visit_emit (g : globals) (root : Path.t) (st : scan_state) (e : entry) :
  visit g root st e = fold_left emit (events_of g root e) st.
Proof.
  unfold visit, events_of, qualifies, is_file.
  destruct (should_skip_path g (entry_path e)); simpl.
  - now destruct (entry_kind e).
  - destruct (entry_kind e) as [data| |]; try reflexivity.
    case_bool_decide; simpl; [apply try_read_file | reflexivity].
Qed.

Lemma scan_loop_emit (g : globals) (root : Path.t) (es : list entry) :
  forall st,
    scan_loop g root es st
    = fold_left emit (flat_map (events_of g root) es) st.
Proof.
  unfold scan_loop. induction es as [|e es IH]; intros st; simpl.
  - reflexivity.
  - now rewrite fold_left_app, IH, visit_emit.
Qed.

Lemma emit_all_trace (evs : list event) :
  forall st, trace (fold_left emit evs st) = trace st ++ evs.
Proof.
  induction evs as [|ev evs IH]; intros st; simpl.
  - now rewrite app_nil_r.
  - rewrite IH. simpl. now rewrite <- app_assoc.
Qed.

Lemma emit_all_code (evs : list event) :
  forall st,
    combined_code (fold_left emit evs st)
    = combined_code st +:+ render_all evs.
Proof.
  induction evs as [|ev evs IH]; intros st; simpl.
  - now rewrite append_empty_r.
  - rewrite IH. simpl. now rewrite append_assoc.
Qed.

Lemma emit_all_count (evs : list event) :
  forall st,
    file_count (fold_left emit evs st)
    = file_count st + length (sections evs).
Proof.
  induction evs as [|ev evs IH]; intros st; simpl.
  - now rewrite Nat.add_0_r.
  - rewrite IH. simpl. rewrite length_app.
    destruct ev; simpl; lia.
Qed.

(** ** The whole scan *)

Lemma trace_scan_run (g : globals) (w : world) :
  trace (scan_run g w)
  = flat_map (events_of g (root_path w)) (rglob (root_path w) (tree w)).
Proof.
  unfold scan_run. now rewrite scan_loop_emit, emit_all_trace.
Qed.

(** The buffer is the header followed by what [trace] records. *)
Lemma combined_code_scan_run (g : globals) (w : world) :
  combined_code (scan_run g w)
  = (context_header (timestamp w) (root_path w) (git w) +:+ LF)
    +:+ render_all (trace (scan_run g w)).
Proof.
  rewrite trace_scan_run. unfold scan_run.
  now rewrite scan_loop_emit, emit_all_code.
Qed.

(** The counter is the number of sections. *)
Lemma file_count_scan_run (g : globals) (w : world) :
  file_count (scan_run g w) = length (scan_result g w).
Proof.
  unfold scan_result. rewrite trace_scan_run. unfold scan_run.
  now rewrite scan_loop_emit, emit_all_count.
Qed.

(** Where a section comes from: a qualifying, readable file that [rglob]
    yields at [root / rel]. *)
Lemma scan_result_inv (g : globals) (w : world) (rel : Path.t) (code : string) :
  In (rel, code) (scan_result g w) ->
  exists (r : list string) (raw : string),
    r <> [] /\ rel = Path.make "" r /\ code = read_text raw
    /\ In (Entry (below (root_path w) r) (IsFile (Readable raw)))
          (rglob (root_path w) (tree w))
    /\ qualifies g (Entry (below (root_path w) r) (IsFile (Readable raw)))
       = true.
Proof.
  unfold scan_result, sections. rewrite trace_scan_run.
  intros H. apply in_flat_map in H as (ev & Hev & Hin).
  apply in_flat_map in Hev as (e & He & Hev).
  destruct (rglob_below _ _ _ He) as (r & Hr & Hpath).
  destruct e as [p k]; simpl in Hpath; subst p.
  unfold events_of in Hev; simpl in Hev.
  destruct k as [data| |]; try contradiction.
  destruct (qualifies g _) eqn:Hq; [|contradiction].
  destruct Hev as [<-|[]].
  unfold rel_path_of in Hin. rewrite relative_to_below in Hin.
  destruct data as [raw|e|partial e]; simpl in Hin; try contradiction.
  destruct Hin as [[= <- <-]|[]].
  exists r, raw. repeat split; assumption.
Qed.

Lemma scan_result_intro (g : globals) (w : world) (r : list string)
      (raw : string) :
  In (Entry (below (root_path w) r) (IsFile (Readable raw)))
     (rglob (root_path w) (tree w)) ->
  qualifies g (Entry (below (root_path w) r) (IsFile (Readable raw))) = true ->
  In (Path.make "" r, read_text raw) (scan_result g w).
Proof.
  intros He Hq. unfold scan_result, sections. rewrite trace_scan_run.
  apply in_flat_map. exists (FileSection (Path.make "" r) (read_text raw)).
  split; [|now left].
  apply in_flat_map. eexists. split; [exact He|].
  unfold events_of; simpl. rewrite Hq.
  unfold rel_path_of. rewrite relative_to_below. now left.
Qed.

(** The [ValueError] branch of the first [try] is never taken. *)
Lemma rel_path_of_rglob (w : world) (e : entry) :
  In e (rglob (root_path w) (tree w)) ->
  Path.relative_to (entry_path e) (root_path w)
  = Some (rel_path_of (entry_path e) (root_path w)).
Proof.
  intros He. destruct (rglob_below _ _ _ He) as (r & _ & ->).
  unfold rel_path_of. now rewrite relative_to_below.
Qed.

(** ** Filters *)

Lemma below_child (root : Path.t) (x : string) (rel : list string) :
  below (Path.child root x) rel = below root (x :: rel).
Proof. unfold below, Path.child; simpl. now rewrite <- app_assoc. Qed.

Lemma below_below (root : Path.t) (pre rel : list string) :
  below (below root pre) rel = below root (pre ++ rel).
Proof. unfold below; simpl. now rewrite <- app_assoc. Qed.

Lemma rglob_walk (root : Path.t) (tree : list node) (n : node) (e : entry) :
  In n tree -> In e (walk root n) -> In e (rglob root tree).
Proof.
  intros Hn He. unfold rglob. apply in_or_app. right.
  apply in_flat_map. now exists n.
Qed.

(** The entries below a directory of the tree are entries of the tree. *)
Lemma rglob_dir_at (tree : list node) (rel : list string)
      (children : list node) :
  dir_at tree rel children ->
  forall (root : Path.t) (e : entry),
    In e (rglob (below root rel) children) -> In e (rglob root tree).
Proof.
  induction 1 as [tree x children Hin|tree x sub rel children Hin _ IH];
    intros root e He.
  - apply (rglob_walk root tree (Dir x children)); [assumption|].
    now rewrite walk_dir, child_root.
  - apply (rglob_walk root tree (Dir x sub)); [assumption|].
    rewrite walk_dir. apply IH. now rewrite below_child.
Qed.

Lemma visit_skipped (g : globals) (root : Path.t) (st : scan_state)
      (e : entry) :
  should_skip_path g (entry_path e) = true -> visit g root st e = st.
Proof. intros H. unfold visit. now rewrite H. Qed.

(** C1: every (relative path, content) pair of the ScanResult has its
    extension, lower-cased and with its dot, in the inclusion set; no
    component of its path, absolute or relative, is in the directory skip
    set when lower-cased; and its lower-cased name is not in the file skip
    set. *)
Theorem scan_result_satisfies_filters (g : globals) (w : world)
        (rel : Path.t) (code : string) :
  In (rel, code) (scan_result g w) ->
  Str.lower (Path.suffix rel) ∈ FILE_TYPES g
  /\ (forall part, In part (Path.parts (Path.join (root_path w) rel)) ->
                   Str.lower part ∉ SKIP_DIRS g)
  /\ (forall part, In part (Path.parts rel) -> Str.lower part ∉ SKIP_DIRS g)
  /\ Str.lower (Path.name rel) ∉ SKIP_FILES g.
Proof.
  intros H.
  destruct (scan_result_inv g w rel code H)
    as (r & raw & Hr & -> & _ & _ & Hq).
  unfold qualifies in Hq; simpl in Hq.
  apply andb_prop in Hq as [Hq Hext]. apply andb_prop in Hq as [Hskip _].
  apply negb_true_iff, should_skip_path_false in Hskip as [Hdirs Hfile].
  apply bool_decide_eq_true in Hext.
  rewrite suffix_below in Hext by assumption.
  rewrite name_below in Hfile by assumption.
  change (Path.join (root_path w) (Path.make "" r))
    with (below (root_path w) r).
  repeat split; try assumption.
  intros part Hpart. apply Hdirs. rewrite parts_below.
  apply in_or_app. now right.
Qed.

Lemma scan_result_satisfies_filters_witness :
  In (Path.make "" ["src"; "Main.PY"], "l1" +:+ LF +:+ "l2")
     (scan_result module_globals sample_world)
  /\ Str.lower (Path.suffix (Path.make "" ["src"; "Main.PY"]))
     ∈ FILE_TYPES module_globals.
Proof.
  assert (In (Path.make "" ["src"; "Main.PY"], "l1" +:+ LF +:+ "l2")
             (scan_result module_globals sample_world)) as H.
  { vm_compute. right. right. left. reflexivity. }
  split; [exact H|].
  exact (proj1 (scan_result_satisfies_filters _ _ _ _ H)).
Defined.

(** C2: when a directory of the tree has a name that, lower-cased, is in
    the directory skip set, every entry below it is enumerated but
    skipped: the iteration leaves the state as it was, and no pair of the
    ScanResult has the entry's relative path, whatever the entry's own
    name, extension or content. *)
Theorem skipped_directory_hides_descendants (g : globals) (w : world)
        (pre : list string) (d : string) (children : list node) :
  dir_at (tree w) (pre ++ [d]) children ->
  Str.lower d ∈ SKIP_DIRS g ->
  forall e : entry,
    In e (rglob (below (root_path w) (pre ++ [d])) children) ->
    In e (rglob (root_path w) (tree w))
    /\ should_skip_path g (entry_path e) = true
    /\ (forall st, visit g (root_path w) st e = st)
    /\ (forall code,
          ~ In (rel_path_of (entry_path e) (root_path w), code)
               (scan_result g w)).
Proof.
  intros Hdir Hd e He.
  destruct (rglob_below _ _ _ He) as (rest & _ & Hpath).
  rewrite below_below, <- app_assoc in Hpath; simpl in Hpath.
  assert (Hskip : should_skip_path g (entry_path e) = true).
  { rewrite Hpath. now apply skip_dir_component. }
  split; [now apply (rglob_dir_at _ _ _ Hdir)|].
  split; [assumption|].
  split; [intros st; now apply visit_skipped|].
  intros code Hin.
  destruct (scan_result_inv g w _ _ Hin) as (r & raw & _ & Hrel & _ & _ & Hq).
  rewrite Hpath in Hrel, Hskip.
  unfold rel_path_of in Hrel. rewrite relative_to_below in Hrel.
  injection Hrel as <-.
  unfold qualifies in Hq; simpl in Hq. rewrite Hskip in Hq. discriminate.
Qed.

Lemma skipped_directory_hides_descendants_witness :
  let e := Entry (Path.make "/" ["home"; "u"; "proj"; "src"; "Build"; "q.c"])
                 (IsFile (Readable "q")) in
  In e (rglob (root_path sample_world) (tree sample_world))
  /\ should_skip_path module_globals (entry_path e) = true
  /\ (forall st, visit module_globals (root_path sample_world) st e = st)
  /\ (forall code,
        ~ In (rel_path_of (entry_path e) (root_path sample_world), code)
             (scan_result module_globals sample_world)).
Proof.
  apply (skipped_directory_hides_descendants module_globals sample_world
           ["src"] "Build" [File "q.c" (Readable "q")]).
  - apply (dir_below sample_tree "src"
             [ File "Main.PY" (Readable ("l1" +:+ String "013" LF +:+ "l2"));
               File "bad.txt" (ReadFails "par" "[Errno 5] Input/output error");
               File "Package-Lock.JSON" (Readable "{}");
               File "notes" (Readable "n");
               Dir "Build" [ File "q.c" (Readable "q") ] ]
             ["Build"]).
    + simpl. tauto.
    + apply dir_here. simpl. tauto.
  - apply (bool_decide_unpack _). vm_compute. exact I.
  - vm_compute. left. reflexivity.
Defined.

(** ** The header *)

Lemma get_git_info_cases (git : git_queries) :
  get_git_info git =
  match git_branch git, git_rev_parse git, git_status git with
  | Output out1, Output out2, Output status =>
      (Some (Str.strip out1), Some (Str.strip out2),
       length (List.filter modified_or_untracked (Str.splitlines status)))
  | _, _, _ => (None, None, 0)
  end.
Proof.
  unfold get_git_info.
  destruct (git_branch git), (git_rev_parse git), (git_status git);
    reflexivity.
Qed.

(** A query that raises gives the marker. *)
Lemma context_header_absent (ts : string) (root : Path.t) (git : git_queries) :
  failed (git_branch git) || failed (git_rev_parse git)
  || failed (git_status git) = true ->
  context_header ts root git
  = "# 🚀 PROJECT CODE CONTEXT - " +:+ ts +:+ LF +:+ LF
    +:+ "Directory: " +:+ Path.str root +:+ LF
    +:+ "⚠️ Not a Git repository" +:+ LF.
Proof.
  unfold context_header. rewrite get_git_info_cases.
  destruct (git_branch git), (git_rev_parse git), (git_status git);
    simpl; intros H; try discriminate; reflexivity.
Qed.

(** Three answers with a branch name and a commit id give the two lines. *)
Lemma context_header_present (ts : string) (root : Path.t)
      (out1 out2 status : string) :
  Str.strip out1 <> "" -> Str.strip out2 <> "" ->
  exists changes,
    context_header ts root (Git (Output out1) (Output out2) (Output status))
    = "# 🚀 PROJECT CODE CONTEXT - " +:+ ts +:+ LF +:+ LF
      +:+ "Directory: " +:+ Path.str root +:+ LF
      +:+ "Git Branch: " +:+ Str.strip out1 +:+ LF
      +:+ "Git Commit ID: " +:+ Str.strip out2 +:+ LF
      +:+ changes.
Proof.
  intros H1 H2. unfold context_header, get_git_info, git_lines; simpl.
  destruct (Str.strip out1) as [|c1 b]; [contradiction|].
  destruct (Str.strip out2) as [|c2 c]; [contradiction|].
  simpl. eexists. reflexivity.
Qed.

(** Three answers of which the branch name is blank give the marker
    too. *)
Lemma context_header_blank_branch (ts : string) (root : Path.t)
      (out1 out2 status : string) :
  Str.strip out1 = "" ->
  context_header ts root (Git (Output out1) (Output out2) (Output status))
  = "# 🚀 PROJECT CODE CONTEXT - " +:+ ts +:+ LF +:+ LF
    +:+ "Directory: " +:+ Path.str root +:+ LF
    +:+ "⚠️ Not a Git repository" +:+ LF.
Proof.
  intros H. unfold context_header, get_git_info, git_lines; simpl.
  now rewrite H.
Qed.

(** C3: at a detached HEAD the three queries succeed, the branch name is
    empty, and the header holds the marker of a directory that is not a
    Git repository, with no branch line and no commit line. *)
Theorem detached_head_reported_as_no_repository :
  failed (git_branch detached_head) || failed (git_rev_parse detached_head)
  || failed (git_status detached_head) = false
  /\ get_git_info detached_head = (Some "", Some "0a1b2c3", 0)
  /\ context_header "2024-01-01 00:00:00" (Path.make "/" ["repo"])
                    detached_head
     = "# 🚀 PROJECT CODE CONTEXT - 2024-01-01 00:00:00" +:+ LF +:+ LF
       +:+ "Directory: /repo" +:+ LF
       +:+ "⚠️ Not a Git repository" +:+ LF.
Proof. repeat split; reflexivity. Qed.

(** ** Size *)

Lemma visit_qualifying (g : globals) (root : Path.t) (st : scan_state)
      (p : Path.t) (data : file_data) :
  qualifies g (Entry p (IsFile data)) = true ->
  visit g root st (Entry p (IsFile data))
  = emit st (event_of (rel_path_of p root) data).
Proof.
  intros Hq. rewrite visit_emit. unfold events_of; simpl. now rewrite Hq.
Qed.

(** C4: the size threshold has no effect.  The scan gives the same state
    and the same output whatever [MAX_FILE_SIZE] holds, and a qualifying
    file that is read gets its header and its whole text appended and is
    counted, whatever its length. *)
Theorem max_file_size_not_enforced (g : globals) (m : Z) (w : world)
        (st : scan_state) (p : Path.t) (raw : string) :
  qualifies g (Entry p (IsFile (Readable raw))) = true ->
  scan_run (with_max_file_size m g) w = scan_run g w
  /\ scan_project (with_max_file_size m g) w = scan_project g w
  /\ visit (with_max_file_size m g) (root_path w) st
           (Entry p (IsFile (Readable raw)))
     = State (combined_code st
              +:+ file_header (rel_path_of p (root_path w))
              +:+ read_text raw +:+ LF +:+ LF)
             (S (file_count st))
             (trace st
              ++ [FileSection (rel_path_of p (root_path w)) (read_text raw)]).
Proof.
  intros Hq.
  split; [reflexivity|]. split; [reflexivity|].
  change (visit (with_max_file_size m g)) with (visit g).
  rewrite (visit_qualifying g _ _ _ _ Hq). unfold emit; simpl.
  now rewrite Nat.add_1_r.
Qed.

Lemma max_file_size_not_enforced_witness :
  let g := with_max_file_size 4 module_globals in
  let raw := "0123456789" in
  let st := State "" 0 [] in
  (MAX_FILE_SIZE g < Str.len raw)%Z
  /\ visit g (root_path sample_world) st
           (Entry (Path.make "/" ["home"; "u"; "proj"; "big.txt"])
                  (IsFile (Readable raw)))
     = State (LF +:+ LF +:+ "# File: big.txt" +:+ LF +:+ raw +:+ LF +:+ LF)
             1 [FileSection (Path.make "" ["big.txt"]) raw].
Proof.
  split; [reflexivity|].
  exact (proj2 (proj2 (max_file_size_not_enforced
                         module_globals 4 sample_world (State "" 0 [])
                         (Path.make "/" ["home"; "u"; "proj"; "big.txt"])
                         "0123456789" eq_refl))).
Defined.

(** ** Read errors *)

Lemma event_of_raises (rel : Path.t) (data : file_data) (e : string) :
  raises data = Some e -> event_of rel data = ErrorMarker rel e.
Proof. destruct data; simpl; congruence. Qed.

(** C5, as the claim has it, fails on a file whose bytes are not UTF-8
    text (the Latin-1 bytes 63 61 66 E9): the strict decoder rejects them,
    yet the file qualifies, no marker is written, its section is appended
    with the byte E9 dropped, and it is counted. *)
Lemma undecodable_file_is_processed :
  let raw := String "099" (String "097" (String "102" (String "233" ""))) in
  let e := Entry (Path.make "/" ["r"; "a.py"]) (IsFile (Readable raw)) in
  qualifies module_globals e = true
  /\ Str.decode_strict raw = None
  /\ visit module_globals (Path.make "/" ["r"]) (State "" 0 []) e
     = State (LF +:+ LF +:+ "# File: a.py" +:+ LF +:+ "caf" +:+ LF +:+ LF)
             1 [FileSection (Path.make "" ["a.py"]) "caf"].
Proof. repeat split; reflexivity. Qed.

(** C5, amended: for a qualifying file on which [open] or [read] raises,
    the buffer gains the error marker with the relative path and the
    error's text, the counter is not incremented, and the loop goes on
    with the remaining entries.  Bytes that are not UTF-8 raise nothing:
    a qualifying file that is read, whatever its bytes, gets its section
    with the undecodable bytes dropped, and is counted. *)
Theorem read_error_leaves_marker (g : globals) (root : Path.t)
        (st : scan_state) (p : Path.t) (data : file_data)
        (rest : list entry) :
  qualifies g (Entry p (IsFile data)) = true ->
  let rel := rel_path_of p root in
  let st' := visit g root st (Entry p (IsFile data)) in
  scan_loop g root (Entry p (IsFile data) :: rest) st
  = scan_loop g root rest st'
  /\ match data with
     | OpenFails e | ReadFails _ e =>
         combined_code st' = combined_code st +:+ error_marker rel e
         /\ file_count st' = file_count st
     | Readable raw =>
         combined_code st'
         = combined_code st +:+ file_header rel
           +:+ Str.universal_newlines (Str.decode_ignore raw) +:+ LF +:+ LF
         /\ file_count st' = S (file_count st)
     end.
Proof.
  intros Hq rel st'. split; [reflexivity|].
  subst st'. rewrite (visit_qualifying g _ _ _ _ Hq). fold rel.
  destruct data; unfold emit; simpl; split; try reflexivity; lia.
Qed.

Lemma read_error_leaves_marker_witness :
  let root := Path.make "/" ["home"; "u"; "proj"] in
  let e := Entry (Path.make "/" ["home"; "u"; "proj"; "src"; "bad.txt"])
                 (IsFile (ReadFails "par" "[Errno 5] Input/output error")) in
  let st := State "head" 2 [] in
  combined_code (visit module_globals root st e)
  = "head" +:+ LF +:+ LF
    +:+ "[Error reading src/bad.txt: [Errno 5] Input/output error]"
  /\ file_count (visit module_globals root st e) = 2.
Proof.
  exact (proj2 (read_error_leaves_marker
                  module_globals (Path.make "/" ["home"; "u"; "proj"])
                  (State "head" 2 [])
                  (Path.make "/" ["home"; "u"; "proj"; "src"; "bad.txt"])
                  (ReadFails "par" "[Errno 5] Input/output error")
                  [] eq_refl)).
Defined.

(** C10: when [open] or [read] raises on a qualifying file, the body of
    the [try] raises with the state as it found it, so the iteration
    extends the buffer by the error marker and by nothing else: no
    section is recorded, the counter stays, and what [read] had
    transferred before it failed plays no part. *)
Theorem read_error_appends_only_marker (g : globals) (root : Path.t)
        (st : scan_state) (p : Path.t) (data : file_data) (e : string) :
  qualifies g (Entry p (IsFile data)) = true ->
  raises data = Some e ->
  let rel := rel_path_of p root in
  read_file rel data st = (Raise e, st)
  /\ visit g root st (Entry p (IsFile data))
     = State (combined_code st +:+ error_marker rel e)
             (file_count st)
             (trace st ++ [ErrorMarker rel e])
  /\ sections (trace (visit g root st (Entry p (IsFile data))))
     = sections (trace st)
  /\ (forall partial,
        qualifies g (Entry p (IsFile (ReadFails partial e))) = true
        /\ visit g root st (Entry p (IsFile (ReadFails partial e)))
           = visit g root st (Entry p (IsFile data))).
Proof.
  intros Hq Hraise rel.
  assert (Hvisit : forall data',
             raises data' = Some e ->
             visit g root st (Entry p (IsFile data'))
             = State (combined_code st +:+ error_marker rel e)
                     (file_count st) (trace st ++ [ErrorMarker rel e])).
  { intros data' H'.
    assert (qualifies g (Entry p (IsFile data')) = true) as Hq' by exact Hq.
    rewrite (visit_qualifying g _ _ _ _ Hq'), (event_of_raises _ _ _ H').
    unfold emit; simpl. now rewrite Nat.add_0_r. }
  split.
  { rewrite read_file_raises. destruct data; simpl in Hraise; congruence. }
  split; [now apply Hvisit|].
  split.
  { rewrite (Hvisit data Hraise); simpl.
    unfold sections. rewrite flat_map_app; simpl. now rewrite app_nil_r. }
  intros partial. split; [exact Hq|].
  now rewrite (Hvisit data Hraise), (Hvisit (ReadFails partial e) eq_refl).
Qed.

Lemma read_error_appends_only_marker_witness :
  let root := Path.make "/" ["home"; "u"; "proj"] in
  let rel := Path.make "" ["src"; "bad.txt"] in
  let data := ReadFails "par" "[Errno 5] Input/output error" in
  let st := State "head" 2 [FileSection (Path.make "" ["a.py"]) "x"] in
  visit module_globals root st
        (Entry (Path.make "/" ["home"; "u"; "proj"; "src"; "bad.txt"])
               (IsFile data))
  = State ("head" +:+ LF +:+ LF
           +:+ "[Error reading src/bad.txt: [Errno 5] Input/output error]")
          2
          [FileSection (Path.make "" ["a.py"]) "x";
           ErrorMarker rel "[Errno 5] Input/output error"].
Proof.
  exact (proj1 (proj2 (read_error_appends_only_marker
                  module_globals (Path.make "/" ["home"; "u"; "proj"])
                  (State "head" 2 [FileSection (Path.make "" ["a.py"]) "x"])
                  (Path.make "/" ["home"; "u"; "proj"; "src"; "bad.txt"])
                  (ReadFails "par" "[Errno 5] Input/output error")
                  "[Errno 5] Input/output error" eq_refl eq_refl))).
Defined.

(** ** The count of modified or untracked files *)

Example get_git_info_sample :
  get_git_info sample_git = (Some "main", Some "0a1b2c3", 2).
Proof. reflexivity. Qed.



(** ** Determinism *)



(** ** Lower case and the suffix *)

Lemma lower_char_dot (d : ascii) :
  Ascii.eqb "." (Str.lower_char d) = Ascii.eqb "." d.
Proof.
  destruct d as [[] [] [] [] [] [] [] []]; reflexivity.
Qed.

Lemma rfind_from_lower (s : string) :
  forall i, Str.rfind_from "." i (Str.lower s) = Str.rfind_from "." i s.
Proof.
  induction s as [|d s IH]; intros i; [reflexivity|].
  cbn [Str.lower Str.rfind_from].
  now rewrite IH, lower_char_dot.
Qed.

Lemma length_lower (s : string) :
  String.length (Str.lower s) = String.length s.
Proof. induction s as [|d s IH]; simpl; congruence. Qed.

Lemma slice_from_lower (s : string) :
  forall i, Str.slice_from i (Str.lower s) = Str.lower (Str.slice_from i s).
Proof.
  induction s as [|d s IH]; intros [|i]; simpl; try reflexivity.
  apply IH.
Qed.

(** The suffix of the lower-cased name is the lower-cased suffix. *)
Lemma suffix_of_name_lower (n : string) :
  Path.suffix_of_name (Str.lower n) = Str.lower (Path.suffix_of_name n).
Proof.
  unfold Path.suffix_of_name, Str.rfind, Str.len.
  rewrite rfind_from_lower, length_lower.
  destruct (_ && _); [apply slice_from_lower | reflexivity].
Qed.

Lemma package_lock_in_skip_files :
  "package-lock.json" ∈ SKIP_FILES module_globals.
Proof. apply (bool_decide_unpack _). vm_compute. exact I. Qed.

Lemma json_in_file_types : ".json" ∈ FILE_TYPES module_globals.
Proof. apply (bool_decide_unpack _). vm_compute. exact I. Qed.

(** C8: a file whose lower-cased name is [package-lock.json] has the
    allowed extension [.json], and yet it is skipped wherever it lies and
    no pair of the ScanResult carries its path. *)
Theorem package_lock_excluded (w : world) (rel : Path.t) (code : string) :
  Str.lower (Path.name rel) = "package-lock.json" ->
  Str.lower (Path.suffix rel) ∈ FILE_TYPES module_globals
  /\ (forall (p : Path.t) (k : kind) (st : scan_state),
        Path.name p = Path.name rel ->
        should_skip_path module_globals p = true
        /\ visit module_globals (root_path w) st (Entry p k) = st)
  /\ ~ In (rel, code) (scan_result module_globals w).
Proof.
  intros Hname.
  assert (Hskip : forall p, Path.name p = Path.name rel ->
                            should_skip_path module_globals p = true).
  { intros p Hp. apply should_skip_path_true. right.
    rewrite Hp, Hname. apply package_lock_in_skip_files. }
  split.
  { unfold Path.suffix. rewrite <- suffix_of_name_lower, Hname.
    apply json_in_file_types. }
  split.
  { intros p k st Hp. split; [now apply Hskip|].
    apply visit_skipped. now apply Hskip. }
  intros Hin.
  destruct (scan_result_inv _ _ _ _ Hin) as (r & raw & Hr & -> & _ & _ & Hq).
  unfold qualifies in Hq; simpl in Hq.
  rewrite (Hskip (below (root_path w) r)) in Hq; [discriminate|].
  now apply name_below.
Qed.

Lemma package_lock_excluded_witness :
  Str.lower (Path.suffix (Path.make "" ["src"; "Package-Lock.JSON"]))
  ∈ FILE_TYPES module_globals
  /\ ~ In (Path.make "" ["src"; "Package-Lock.JSON"], "{}")
          (scan_result module_globals sample_world).
Proof.
  pose proof (package_lock_excluded
                sample_world (Path.make "" ["src"; "Package-Lock.JSON"])
                "{}" eq_refl) as H.
  exact (conj (proj1 H) (proj2 (proj2 H))).
Defined.

(** ** A root below a skipped directory *)

Lemma no_events_when_all_skipped (g : globals) (root : Path.t)
      (es : list entry) :
  (forall e, In e es -> should_skip_path g (entry_path e) = true) ->
  flat_map (events_of g root) es = [].
Proof.
  induction es as [|e es IH]; intros Hall; simpl; [reflexivity|].
  rewrite IH by (intros e' He'; apply Hall; now right).
  unfold events_of, qualifies. rewrite (Hall e) by now left.
  simpl. now destruct (entry_kind e).
Qed.

(** C9: when a component of the resolved root is, lower-cased, in the
    directory skip set, every entry that [rglob] yields is skipped: the
    ScanResult is empty, the counter is 0, and the output is the header
    followed by the summary line with a total of 0, whatever the tree
    holds. *)
Theorem root_below_skipped_directory_scans_nothing (g : globals) (w : world)
        (part : string) :
  In part (Path.parts (root_path w)) ->
  Str.lower part ∈ SKIP_DIRS g ->
  (forall e, In e (rglob (root_path w) (tree w)) ->
             should_skip_path g (entry_path e) = true)
  /\ scan_result g w = []
  /\ file_count (scan_run g w) = 0
  /\ scan_project g w
     = context_header (timestamp w) (root_path w) (git w) +:+ LF
       +:+ LF +:+ LF +:+ "📊 Total files processed: 0" +:+ LF.
Proof.
  intros Hpart Hskip.
  assert (Hall : forall e, In e (rglob (root_path w) (tree w)) ->
                           should_skip_path g (entry_path e) = true).
  { intros e He. destruct (rglob_below _ _ _ He) as (rel & _ & ->).
    apply should_skip_path_true. left. exists part.
    split; [|assumption].
    rewrite parts_below. apply in_or_app. now left. }
  assert (Htrace : trace (scan_run g w) = []).
  { rewrite trace_scan_run. now apply no_events_when_all_skipped. }
  assert (Hres : scan_result g w = []).
  { unfold scan_result. now rewrite Htrace. }
  split; [assumption|]. split; [assumption|].
  assert (Hcount : file_count (scan_run g w) = 0).
  { now rewrite file_count_scan_run, Hres. }
  split; [assumption|].
  unfold scan_project.
  rewrite combined_code_scan_run, Htrace, Hcount; simpl.
  now rewrite append_empty_r, !append_assoc.
Qed.

Lemma root_below_skipped_directory_scans_nothing_witness :
  scan_result module_globals build_world = []
  /\ file_count (scan_run module_globals build_world) = 0.
Proof.
  assert (In "Build" (Path.parts (root_path build_world))) as Hin.
  { simpl. tauto. }
  assert (Str.lower "Build" ∈ SKIP_DIRS module_globals) as Hskip.
  { apply (bool_decide_unpack _). vm_compute. exact I. }
  pose proof (root_below_skipped_directory_scans_nothing
                module_globals build_world "Build" Hin Hskip) as H.
  exact (conj (proj1 (proj2 H)) (proj1 (proj2 (proj2 H)))).
Defined.

(** * Further properties *)

(** ** Enumeration and the tree *)

Lemma rglob_node_at (tree : list node) (rel : list string) (n : node) :
  node_at tree rel n ->
  forall root : Path.t,
    In (Entry (below root rel) (node_kind n)) (rglob root tree).
Proof.
  induction 1 as [tree n Hin|tree x sub rel n Hin _ IH]; intros root.
  - unfold rglob. apply in_or_app. left.
    apply in_map_iff. now exists n.
  - apply (rglob_walk root tree (Dir x sub)); [assumption|].
    rewrite walk_dir, <- below_child. apply IH.
Qed.

Lemma walk_node_at (n : node) :
  forall (parent : Path.t) (e : entry),
    In e (walk parent n) ->
    exists x sub rel m,
      n = Dir x sub /\ node_at sub rel m
      /\ e = Entry (below (Path.child parent x) rel) (node_kind m).
Proof.
  induction n as [x d|x children IH|x] using node_ind'; simpl;
    intros parent e He; try contradiction.
  rewrite List.Forall_forall in IH.
  exists x, children.
  apply in_app_or in He as [He|He].
  - apply in_map_iff in He as (m & <- & Hm).
    exists [node_name m], m. repeat split. now apply node_here.
  - apply in_flat_map in He as (m & Hm & He).
    destruct (IH m Hm _ _ He) as (y & sub & rel & m' & -> & Hat & ->).
    exists (y :: rel), m'. repeat split.
    + now apply (node_below children y sub).
    + now rewrite below_child.
Qed.

Lemma rglob_node_at_inv (root : Path.t) (tree : list node) (e : entry) :
  In e (rglob root tree) ->
  exists rel n,
    node_at tree rel n /\ e = Entry (below root rel) (node_kind n).
Proof.
  unfold rglob. intros He. apply in_app_or in He as [He|He].
  - apply in_map_iff in He as (m & <- & Hm).
    exists [node_name m], m. split; [now apply node_here | reflexivity].
  - apply in_flat_map in He as (m & Hm & He).
    destruct (walk_node_at m _ _ He) as (y & sub & rel & m' & -> & Hat & ->).
    exists (y :: rel), m'. split.
    + now apply (node_below tree y sub).
    + now rewrite below_child.
Qed.

Lemma below_inj (root : Path.t) (r r' : list string) :
  below root r = below root r' -> r = r'.
Proof.
  unfold below. intros [= H]. now apply app_inv_head in H.
Qed.

Lemma node_at_name (tree : list node) (rel : list string) (n : node) :
  node_at tree rel n -> rel <> [] /\ List.last rel "" = node_name n.
Proof.
  induction 1 as [tree n Hin|tree x sub rel n Hin _ [Hne IH]].
  - split; [discriminate | reflexivity].
  - split; [discriminate|].
    destruct rel as [|y rel]; [contradiction | exact IH].
Qed.

(** X1: the ScanResult holds exactly the readable regular files of the
    tree that pass the three filters: a pair is in it if and only if the
    tree has, at its relative path, a regular file that can be read, whose
    path is not skipped and whose lower-cased suffix is allowed, and the
    pair's text is the text read from that file. *)
Theorem scan_result_characterised (g : globals) (w : world) (rel : Path.t)
        (code : string) :
  In (rel, code) (scan_result g w) <->
  exists (r : list string) (x raw : string),
    node_at (tree w) r (File x (Readable raw))
    /\ rel = Path.make "" r
    /\ code = read_text raw
    /\ should_skip_path g (below (root_path w) r) = false
    /\ Str.lower (Path.suffix (below (root_path w) r)) ∈ FILE_TYPES g.
Proof.
  split.
  - intros H.
    destruct (scan_result_inv g w rel code H)
      as (r & raw & Hr & -> & -> & He & Hq).
    destruct (rglob_node_at_inv _ _ _ He) as (r' & n & Hat & Heq).
    injection Heq as Hpath Hkind. apply app_inv_head in Hpath as <-.
    destruct n as [x d| |]; try discriminate.
    simpl in Hkind. injection Hkind as <-.
    unfold qualifies in Hq; simpl in Hq.
    apply andb_prop in Hq as [Hq Hext]. apply andb_prop in Hq as [Hskip _].
    apply negb_true_iff in Hskip. apply bool_decide_eq_true in Hext.
    exists r, x, raw. repeat split; assumption.
  - intros (r & x & raw & Hat & -> & -> & Hskip & Hext).
    apply scan_result_intro.
    + exact (rglob_node_at _ _ _ Hat (root_path w)).
    + unfold qualifies; simpl. rewrite Hskip; simpl.
      now apply bool_decide_eq_true.
Qed.

Lemma scan_result_characterised_witness :
  In (Path.make "" ["src"; "Main.PY"], "l1" +:+ LF +:+ "l2")
     (scan_result module_globals sample_world).
Proof.
  apply (proj2 (scan_result_characterised module_globals sample_world _ _)).
  exists ["src"; "Main.PY"], "Main.PY", ("l1" +:+ String "013" LF +:+ "l2").
  split.
  { apply (node_below sample_tree "src"
             [ File "Main.PY" (Readable ("l1" +:+ String "013" LF +:+ "l2"));
               File "bad.txt" (ReadFails "par" "[Errno 5] Input/output error");
               File "Package-Lock.JSON" (Readable "{}");
               File "notes" (Readable "n");
               Dir "Build" [ File "q.c" (Readable "q") ] ]
             ["Main.PY"]).
    - simpl. tauto.
    - apply (node_here _ (File "Main.PY" _)). simpl. tauto. }
  split; [reflexivity|]. split; [reflexivity|]. split; [reflexivity|].
  apply (bool_decide_unpack _). vm_compute. exact I.
Defined.

(** ** Order and counts *)




(** ** The relative path *)

(** X3: for every path that [rglob] yields, [relative_to] succeeds, so the
    string-based fallback of the [except ValueError] branch is never
    taken; the relative path has no anchor and at least one component, and
    joined to the root it gives the path back. *)
Theorem relative_path_never_falls_back (w : world) (e : entry) :
  In e (rglob (root_path w) (tree w)) ->
  let rel := rel_path_of (entry_path e) (root_path w) in
  Path.relative_to (entry_path e) (root_path w) = Some rel
  /\ Path.anchor rel = ""
  /\ Path.names rel <> []
  /\ Path.join (root_path w) rel = entry_path e.
Proof.
  intros He rel. subst rel.
  destruct (rglob_below _ _ _ He) as (r & Hr & ->).
  unfold rel_path_of. rewrite relative_to_below.
  repeat split. exact Hr.
Qed.

Lemma relative_path_never_falls_back_witness :
  Path.relative_to (Path.make "/" ["home"; "u"; "proj"; "src"; "Main.PY"])
                   (root_path sample_world)
  = Some (Path.make "" ["src"; "Main.PY"]).
Proof.
  refine (proj1 (relative_path_never_falls_back sample_world
            (Entry (Path.make "/" ["home"; "u"; "proj"; "src"; "Main.PY"])
                   (IsFile (Readable ("l1" +:+ String "013" LF +:+ "l2"))))
            _)).
  vm_compute. do 5 right. left. reflexivity.
Defined.

(** ** Letter case *)

Lemma existsb_lower (S : gset string) (l : list string) :
  existsb (fun part => bool_decide (Str.lower part ∈ S)) l
  = existsb (fun x => bool_decide (x ∈ S)) (List.map Str.lower l).
Proof. induction l as [|a l IH]; simpl; [reflexivity | now rewrite IH]. Qed.

Lemma last_lower (l : list string) :
  Str.lower (List.last l "") = List.last (List.map Str.lower l) "".
Proof.
  induction l as [|a l IH]; [reflexivity|].
  destruct l as [|b l]; [reflexivity | exact IH].
Qed.

(** X4: the filters look at the lower-cased components only: two paths
    with the same anchor whose components agree once lower-cased are
    skipped or kept alike, have the same lower-cased suffix, and qualify
    alike. *)
Theorem filters_ignore_letter_case (g : globals) (p q : Path.t) :
  Path.anchor p = Path.anchor q ->
  List.map Str.lower (Path.names p) = List.map Str.lower (Path.names q) ->
  should_skip_path g p = should_skip_path g q
  /\ Str.lower (Path.suffix p) = Str.lower (Path.suffix q)
  /\ (forall k, qualifies g (Entry p k) = qualifies g (Entry q k)).
Proof.
  intros Ha Hn.
  assert (Hparts : List.map Str.lower (Path.parts p)
                   = List.map Str.lower (Path.parts q)).
  { unfold Path.parts. rewrite Ha.
    destruct (Path.anchor q); simpl; now rewrite Hn. }
  assert (Hname : Str.lower (Path.name p) = Str.lower (Path.name q)).
  { unfold Path.name. now rewrite !last_lower, Hn. }
  assert (Hskip : should_skip_path g p = should_skip_path g q).
  { unfold should_skip_path. now rewrite !existsb_lower, Hparts, Hname. }
  assert (Hsuf : Str.lower (Path.suffix p) = Str.lower (Path.suffix q)).
  { unfold Path.suffix. now rewrite <- !suffix_of_name_lower, Hname. }
  split; [assumption|]. split; [assumption|].
  intros k. unfold qualifies; simpl. now rewrite Hskip, Hsuf.
Qed.

Lemma filters_ignore_letter_case_witness :
  should_skip_path module_globals
    (Path.make "/" ["r"; "Node_Modules"; "Lib.JS"])
  = should_skip_path module_globals
      (Path.make "/" ["r"; "node_modules"; "lib.js"]).
Proof.
  exact (proj1 (filters_ignore_letter_case module_globals
                  (Path.make "/" ["r"; "Node_Modules"; "Lib.JS"])
                  (Path.make "/" ["r"; "node_modules"; "lib.js"])
                  eq_refl eq_refl)).
Defined.

(** ** The module's skip sets and the extension test *)

Lemma not_in_file_types (s : string) :
  bool_decide (s ∈ FILE_TYPES module_globals) = false ->
  s ∉ FILE_TYPES module_globals.
Proof. intros H. now apply bool_decide_eq_false in H. Qed.

(** X5: with the constants of the module, the test of a file's own name
    against the skip sets leaves out one kind of file that would otherwise
    qualify.  A name that is in [SKIP_DIRS] once lower-cased has no
    allowed extension, and of the names in [SKIP_FILES] only
    [package-lock.json] has one. *)
Theorem own_name_skip_only_hides_package_lock (p : Path.t) :
  (Str.lower (Path.name p) ∈ SKIP_DIRS module_globals ->
   Str.lower (Path.suffix p) ∉ FILE_TYPES module_globals)
  /\ (Str.lower (Path.name p) ∈ SKIP_FILES module_globals ->
      Str.lower (Path.suffix p) ∈ FILE_TYPES module_globals ->
      Str.lower (Path.name p) = "package-lock.json").
Proof.
  unfold Path.suffix. rewrite <- suffix_of_name_lower.
  generalize (Str.lower (Path.name p)). intros n. split.
  - intros H. cbn [SKIP_DIRS module_globals] in H. set_unfold in H.
    repeat destruct H as [H|H]; subst n;
      apply not_in_file_types; vm_compute; reflexivity.
  - intros H Hext. cbn [SKIP_FILES module_globals] in H. set_unfold in H.
    repeat destruct H as [H|H]; subst n; try reflexivity;
      exfalso; revert Hext;
      apply not_in_file_types; vm_compute; reflexivity.
Qed.

Lemma own_name_skip_only_hides_package_lock_witness :
  Str.lower (Path.suffix (Path.make "/" ["r"; "Build"]))
  ∉ FILE_TYPES module_globals.
Proof.
  apply (proj1 (own_name_skip_only_hides_package_lock
                  (Path.make "/" ["r"; "Build"]))).
  apply (bool_decide_unpack _). vm_compute. exact I.
Defined.

(** ** The header and the answers of Git *)

Lemma append_inj_l (a b c : string) : a +:+ b = a +:+ c -> b = c.
Proof.
  induction a as [|x a IH]; [trivial|].
  rewrite !append_cons. intros [= H]. now apply IH.
Qed.

Lemma context_header_start (ts : string) (root : Path.t) (git : git_queries) :
  context_header ts root git
  = header_start ts root
    +:+ git_lines (fst (fst (get_git_info git))) (snd (fst (get_git_info git)))
                  (snd (get_git_info git)).
Proof.
  unfold context_header, header_start.
  destruct (get_git_info git) as [[b c] n]; simpl.
  now rewrite !append_assoc.
Qed.

(** X6: the header ends in the marker of a directory that is not a Git
    repository exactly when a query raised or the branch name or the
    commit id, stripped, is empty; in every other case the lines of the
    branch and of the commit follow the [Directory] line. *)
Theorem header_marker_condition (ts : string) (root : Path.t)
        (git : git_queries) :
  (context_header ts root git
   = header_start ts root +:+ "⚠️ Not a Git repository" +:+ LF
   <->
   match git_branch git, git_rev_parse git, git_status git with
   | Output out1, Output out2, Output _ =>
       Str.strip out1 = "" \/ Str.strip out2 = ""
   | _, _, _ => True
   end)
  /\ (context_header ts root git
      <> header_start ts root +:+ "⚠️ Not a Git repository" +:+ LF ->
      exists out1 out2 changes,
        git_branch git = Output out1 /\ git_rev_parse git = Output out2
        /\ context_header ts root git
           = header_start ts root
             +:+ "Git Branch: " +:+ Str.strip out1 +:+ LF
             +:+ "Git Commit ID: " +:+ Str.strip out2 +:+ LF +:+ changes).
Proof.
  rewrite context_header_start, get_git_info_cases.
  destruct (git_branch git) as [out1| |], (git_rev_parse git) as [out2| |],
           (git_status git) as [status| |]; simpl;
    try (split; [tauto | intros H; now destruct H]).
  unfold git_lines; simpl.
  destruct (Str.strip out1) as [|c1 b] eqn:H1; simpl.
  { split; [split; auto | intros H; now destruct H]. }
  destruct (Str.strip out2) as [|c2 c] eqn:H2; simpl.
  { split; [split; auto | intros H; now destruct H]. }
  split.
  - split.
    + intros H. apply append_inj_l in H. discriminate.
    + intros [H|H]; discriminate.
  - intros _. exists out1, out2. eexists.
    rewrite H1, H2. repeat split.
Qed.

Lemma header_marker_condition_witness :
  exists out1 out2 changes,
    git_branch sample_git = Output out1 /\ git_rev_parse sample_git = Output out2
    /\ context_header "2024-01-01 00:00:00" (Path.make "/" ["repo"]) sample_git
       = header_start "2024-01-01 00:00:00" (Path.make "/" ["repo"])
         +:+ "Git Branch: " +:+ Str.strip out1 +:+ LF
         +:+ "Git Commit ID: " +:+ Str.strip out2 +:+ LF +:+ changes.
Proof.
  apply (proj2 (header_marker_condition
                  "2024-01-01 00:00:00" (Path.make "/" ["repo"]) sample_git)).
  vm_compute. discriminate.
Defined.

(** X7: [get_git_info] answers all or nothing: the branch and the commit
    id are both present or both absent, they are absent exactly when one
    of the three queries raised, and then the count is 0, so that a
    positive count always comes with a branch and a commit id. *)
Theorem git_info_all_or_nothing (git : git_queries) :
  let info := get_git_info git in
  let absent := failed (git_branch git) || failed (git_rev_parse git)
                || failed (git_status git) in
  (fst (fst info) = None <-> absent = true)
  /\ (snd (fst info) = None <-> absent = true)
  /\ (absent = true -> snd info = 0)
  /\ (0 < snd info ->
      is_Some (fst (fst info)) /\ is_Some (snd (fst info))).
Proof.
  intros info absent. subst info absent. rewrite get_git_info_cases.
  destruct (git_branch git), (git_rev_parse git), (git_status git); simpl;
    repeat split; intros; try discriminate; try reflexivity; try lia;
    eauto.
Qed.

Lemma git_info_all_or_nothing_witness :
  is_Some (fst (fst (get_git_info sample_git)))
  /\ is_Some (snd (fst (get_git_info sample_git))).
Proof.
  apply (proj2 (proj2 (proj2 (git_info_all_or_nothing sample_git)))).
  vm_compute. lia.
Defined.

(** ** Larger skip sets, smaller allow-list *)

Lemma qualifies_antitone (g g' : globals) (e : entry) :
  SKIP_DIRS g ⊆ SKIP_DIRS g' ->
  SKIP_FILES g ⊆ SKIP_FILES g' ->
  FILE_TYPES g' ⊆ FILE_TYPES g ->
  qualifies g' e = true -> qualifies g e = true.
Proof.
  intros Hd Hf Ht. unfold qualifies. intros H.
  apply andb_prop in H as [H Hext]. apply andb_prop in H as [Hskip Hfile].
  apply negb_true_iff, should_skip_path_false in Hskip as [Hdirs Hname].
  apply bool_decide_eq_true in Hext.
  rewrite Hfile, andb_true_r. apply andb_true_intro. split.
  - apply negb_true_iff, should_skip_path_false. split.
    + intros part Hin Hpart. apply (Hdirs part Hin). now apply Hd.
    + intros Hin. apply Hname. now apply Hf.
  - apply bool_decide_eq_true. now apply Ht.
Qed.

(** X8: adding names to the skip sets, or taking extensions out of the
    allow-list, never brings a new file into the ScanResult: every pair
    found under the stricter constants is found, with the same path and
    text, under the laxer ones. *)
Theorem stricter_globals_scan_less (g g' : globals) (w : world)
        (rel : Path.t) (code : string) :
  SKIP_DIRS g ⊆ SKIP_DIRS g' ->
  SKIP_FILES g ⊆ SKIP_FILES g' ->
  FILE_TYPES g' ⊆ FILE_TYPES g ->
  In (rel, code) (scan_result g' w) -> In (rel, code) (scan_result g w).
Proof.
  intros Hd Hf Ht H.
  destruct (scan_result_inv g' w rel code H)
    as (r & raw & _ & -> & -> & He & Hq).
  apply scan_result_intro; [assumption|].
  now apply (qualifies_antitone g g').
Qed.

Lemma stricter_globals_scan_less_witness :
  In (Path.make "" ["a.py"], "x") (scan_result module_globals sample_world).
Proof.
  apply (stricter_globals_scan_less
           module_globals
           (Globals (FILE_TYPES module_globals)
                    (SKIP_DIRS module_globals ∪ {["src"]})
                    (SKIP_FILES module_globals) (MAX_FILE_SIZE module_globals))
           sample_world).
  - apply union_subseteq_l.
  - reflexivity.
  - reflexivity.
  - vm_compute. left. reflexivity.
Defined.

(** ** The text of a file *)

Lemma decode_strict_from_Some (s : string) :
  forall (keep : nat) (t : string),
    Str.decode_strict_from keep s = Some t ->
    t = s /\ Str.decode_ignore_from keep s = s.
Proof.
  induction s as [|c s IH]; intros keep t H.
  - injection H as <-. now split.
  - cbn [Str.decode_strict_from Str.decode_ignore_from] in *.
    assert (Hstep : forall k, String c <$> Str.decode_strict_from k s = Some t ->
                     t = String c s
                     /\ String c (Str.decode_ignore_from k s) = String c s).
    { intros k Hk.
      destruct (Str.decode_strict_from k s) as [t'|] eqn:Ht'; [|discriminate].
      injection Hk as <-. destruct (IH k t' Ht') as [-> ->]. now split. }
    destruct keep as [|k]; [|now apply Hstep].
    destruct (Str.utf8_seq_len (String c s)) as [|k]; [discriminate|].
    now apply Hstep.
Qed.

Lemma universal_newlines_other (c : ascii) (r : string) :
  c <> CR ->
  Str.universal_newlines (String c r) = String c (Str.universal_newlines r).
Proof.
  intros H.
  destruct c as [[] [] [] [] [] [] [] []]; try reflexivity.
  now destruct H.
Qed.

Lemma universal_newlines_cr (d : ascii) (r : string) :
  d <> "010"%char ->
  Str.universal_newlines (String CR (String d r))
  = String "010" (Str.universal_newlines (String d r)).
Proof.
  intros H.
  destruct d as [[] [] [] [] [] [] [] []]; try reflexivity.
  now destruct H.
Qed.

Lemma universal_newlines_id (s : string) :
  Str.mem_char CR s = false -> Str.universal_newlines s = s.
Proof.
  induction s as [|d s IH]; [reflexivity|].
  cbn [Str.mem_char]. intros H. apply orb_false_elim in H as [Hd Hs].
  rewrite universal_newlines_other.
  - now rewrite IH.
  - intros ->. now rewrite Ascii.eqb_refl in Hd.
Qed.

Lemma universal_newlines_no_cr (s : string) :
  Str.mem_char CR (Str.universal_newlines s) = false
  /\ (forall c,
        Str.mem_char CR (Str.universal_newlines (String c s)) = false).
Proof.
  induction s as [|d s [IH1 IH2]].
  - split; [reflexivity|]. intros c.
    destruct (ascii_dec c CR) as [->|Hc]; [reflexivity|].
    rewrite universal_newlines_other by assumption.
    cbn [Str.mem_char]. apply orb_false_intro; [|reflexivity].
    apply Ascii.eqb_neq. congruence.
  - split; [apply IH2|]. intros c.
    destruct (ascii_dec c CR) as [->|Hc].
    + destruct (ascii_dec d "010"%char) as [->|Hd].
      * change (Str.universal_newlines (String CR (String "010" s)))
          with (String "010" (Str.universal_newlines s)).
        cbn [Str.mem_char]. now rewrite IH1.
      * rewrite universal_newlines_cr by assumption.
        cbn [Str.mem_char]. now rewrite IH2.
    + rewrite universal_newlines_other by assumption.
      cbn [Str.mem_char]. apply orb_false_intro; [|apply IH2].
      apply Ascii.eqb_neq. congruence.
Qed.

(** X9: a qualifying file whose bytes are well-formed UTF-8 and hold no
    carriage return is in the ScanResult with exactly its bytes as text. *)
Theorem utf8_text_copied_verbatim (g : globals) (w : world)
        (r : list string) (x raw text : string) :
  node_at (tree w) r (File x (Readable raw)) ->
  should_skip_path g (below (root_path w) r) = false ->
  Str.lower (Path.suffix (below (root_path w) r)) ∈ FILE_TYPES g ->
  Str.decode_strict raw = Some text ->
  Str.mem_char CR raw = false ->
  text = raw /\ In (Path.make "" r, raw) (scan_result g w).
Proof.
  intros Hat Hskip Hext Hdec Hcr.
  destruct (decode_strict_from_Some raw 0 text Hdec) as [-> Hign].
  split; [reflexivity|].
  assert (Htext : read_text raw = raw).
  { unfold read_text, Str.decode_ignore. rewrite Hign.
    now apply universal_newlines_id. }
  rewrite <- Htext. apply scan_result_intro.
  - exact (rglob_node_at _ _ _ Hat (root_path w)).
  - unfold qualifies; simpl. rewrite Hskip; simpl.
    now apply bool_decide_eq_true.
Qed.

Lemma utf8_text_copied_verbatim_witness :
  In (Path.make "" ["b.md"], "y") (scan_result module_globals sample_world).
Proof.
  refine (proj2 (utf8_text_copied_verbatim
                   module_globals sample_world ["b.md"] "b.md" "y" "y"
                   _ eq_refl _ eq_refl eq_refl)).
  - apply (node_here sample_tree (File "b.md" (Readable "y"))).
    simpl. tauto.
  - apply (bool_decide_unpack _). vm_compute. exact I.
Defined.

(** X10: no text of the ScanResult holds a carriage return: the line ends
    CR LF and CR of a file reach the buffer as LF. *)
Theorem sections_hold_no_carriage_return (g : globals) (w : world)
        (rel : Path.t) (code : string) :
  In (rel, code) (scan_result g w) -> Str.mem_char CR code = false.
Proof.
  intros H.
  destruct (scan_result_inv g w rel code H) as (r & raw & _ & _ & -> & _).
  apply universal_newlines_no_cr.
Qed.

Lemma sections_hold_no_carriage_return_witness :
  Str.mem_char CR ("l1" +:+ LF +:+ "l2") = false.
Proof.
  apply (sections_hold_no_carriage_return
           module_globals sample_world (Path.make "" ["src"; "Main.PY"])).
  vm_compute. do 2 right. left. reflexivity.
Defined.

(** ** The entry point *)

Example is_windows_any_case :
  is_windows "Windows" = true /\ is_windows "Linux" = false
  /\ is_windows "" = false.
Proof. repeat split. Qed.


(** ** Error markers *)



(** ** A directory named like a skipped file *)

(** X13: the file skip set is matched against the final name only.  A
    directory whose lower-cased name is in [SKIP_FILES] is itself skipped,
    but, unlike a directory of [SKIP_DIRS], it hides nothing: a readable
    file below it that passes the filters on its own is in the
    ScanResult. *)
Theorem skip_file_name_on_directory_hides_nothing (g : globals) (w : world)
        (pre : list string) (d x raw : string) :
  node_at (tree w) (pre ++ [d; x]) (File x (Readable raw)) ->
  Str.lower d ∈ SKIP_FILES g ->
  (forall part, In part (Path.parts (below (root_path w) (pre ++ [d; x]))) ->
                Str.lower part ∉ SKIP_DIRS g) ->
  Str.lower x ∉ SKIP_FILES g ->
  Str.lower (Path.suffix_of_name x) ∈ FILE_TYPES g ->
  should_skip_path g (below (root_path w) (pre ++ [d])) = true
  /\ In (Path.make "" (pre ++ [d; x]), read_text raw) (scan_result g w).
Proof.
  intros Hat Hd Hparts Hx Hext. split.
  - apply should_skip_path_true. right.
    rewrite name_below by (now destruct pre).
    unfold Path.name; simpl. now rewrite last_last.
  - assert (Hname : Path.name (below (root_path w) (pre ++ [d; x])) = x).
    { rewrite name_below by (now destruct pre).
      unfold Path.name; simpl.
      change [d; x] with ([d] ++ [x]). now rewrite app_assoc, last_last. }
    apply scan_result_intro.
    + exact (rglob_node_at _ _ _ Hat (root_path w)).
    + unfold qualifies; simpl.
      assert (should_skip_path g (below (root_path w) (pre ++ [d; x]))
              = false) as ->.
      { apply should_skip_path_false. split; [assumption|].
        now rewrite Hname. }
      simpl. apply bool_decide_eq_true.
      unfold Path.suffix. now rewrite Hname.
Qed.

Lemma skip_file_name_on_directory_hides_nothing_witness :
  should_skip_path module_globals (Path.make "/" ["r"; "yarn.lock"]) = true
  /\ In (Path.make "" ["yarn.lock"; "a.py"], "x")
        (scan_result module_globals lock_world).
Proof.
  apply (skip_file_name_on_directory_hides_nothing
           module_globals lock_world [] "yarn.lock" "a.py" "x").
  - apply (node_below (tree lock_world) "yarn.lock"
             [ File "a.py" (Readable "x") ] ["a.py"]).
    + simpl. tauto.
    + apply (node_here _ (File "a.py" (Readable "x"))). simpl. tauto.
  - apply (bool_decide_unpack _). vm_compute. exact I.
  - intros part Hin. simpl in Hin.
    destruct Hin as [<-|[<-|[<-|[<-|[]]]]];
      apply (bool_decide_unpack _); vm_compute; exact I.
  - apply (bool_decide_unpack _). vm_compute. exact I.
  - apply (bool_decide_unpack _). vm_compute. exact I.
Defined.

(** ** The extension *)

Lemma length_append (a b : string) :
  String.length (a +:+ b) = String.length a + String.length b.
Proof.
  induction a as [|c a IH]; [reflexivity|].
  rewrite append_cons. simpl. now rewrite IH.
Qed.

Lemma slice_from_append (a b : string) :
  Str.slice_from (String.length a) (a +:+ b) = b.
Proof. induction a as [|c a IH]; [now destruct b | exact IH]. Qed.

(** [rfind] finds the last dot: nothing after it is a dot. *)
Lemma rfind_from_dot (s : string) :
  forall i : Z,
    (0 <= i)%Z ->
    (Str.rfind_from "." i s = (-1)%Z /\ Str.mem_char "." s = false)
    \/ (exists stem ext,
          s = stem +:+ String "." ext
          /\ Str.mem_char "." ext = false
          /\ Str.rfind_from "." i s = (i + Str.len stem)%Z).
Proof.
  induction s as [|d s IH]; intros i Hi.
  - left. now split.
  - cbn [Str.rfind_from Str.mem_char].
    assert (Hi' : (0 <= i + 1)%Z) by lia.
    destruct (IH (i + 1)%Z Hi')
      as [[Hlater Hno]|(stem & ext & -> & Hext & Hlater)];
      rewrite Hlater.
    + change (0 <=? -1)%Z with false. cbn iota.
      destruct (Ascii.eqb_spec "." d) as [<-|Hd].
      * right. exists "", s. repeat split; [assumption|].
        unfold Str.len; simpl. lia.
      * left. now split.
    + assert ((0 <=? i + 1 + Str.len stem)%Z = true) as ->.
      { apply Z.leb_le. unfold Str.len. lia. }
      right. exists (String d stem), ext. repeat split; [assumption|].
      unfold Str.len; simpl String.length. lia.
Qed.

Lemma suffix_of_name_dot (n : string) :
  Path.suffix_of_name n <> "" ->
  exists stem ext,
    n = stem +:+ "." +:+ ext
    /\ stem <> "" /\ ext <> ""
    /\ Str.mem_char "." ext = false
    /\ Path.suffix_of_name n = "." +:+ ext.
Proof.
  unfold Path.suffix_of_name, Str.rfind.
  destruct (rfind_from_dot n 0 (Z.le_refl 0))
    as [[-> _]|(stem & ext & -> & Hext & ->)].
  - intros H. now destruct H.
  - rewrite Z.add_0_l.
    destruct (_ && _) eqn:Hcond; [|intros H; now destruct H].
    intros _. apply andb_prop in Hcond as [Hpos Hlt].
    apply Z.ltb_lt in Hpos, Hlt.
    unfold Str.len in *. rewrite length_append in Hlt.
    simpl String.length in Hlt.
    exists stem, ext. rewrite Nat2Z.id, slice_from_append.
    repeat split; try assumption.
    + intros ->. simpl in Hpos. lia.
    + intros ->. simpl in Hlt. lia.
Qed.

(** X14: when the empty string is not an allowed extension, a file
    qualifies only if its name is a non-empty stem, a dot, and a non-empty
    extension without a dot: what counts is what follows the last dot, and
    a name without a dot, with its only dot in front, or ending in a dot
    never qualifies. *)
Theorem qualifying_name_has_extension (g : globals) (e : entry) :
  "" ∉ FILE_TYPES g ->
  qualifies g e = true ->
  exists stem ext,
    Path.name (entry_path e) = stem +:+ "." +:+ ext
    /\ stem <> "" /\ ext <> ""
    /\ Str.mem_char "." ext = false
    /\ Path.suffix (entry_path e) = "." +:+ ext
    /\ Str.lower ("." +:+ ext) ∈ FILE_TYPES g.
Proof.
  intros Hempty Hq. unfold qualifies in Hq.
  apply andb_prop in Hq as [_ Hext]. apply bool_decide_eq_true in Hext.
  unfold Path.suffix in *.
  destruct (suffix_of_name_dot (Path.name (entry_path e)))
    as (stem & ext & Hn & Hs & He & Hdot & Hsuf).
  { intros H. rewrite H in Hext. now apply Hempty. }
  exists stem, ext. rewrite Hsuf in Hext. repeat split; assumption.
Qed.

Lemma qualifying_name_has_extension_witness :
  exists stem ext,
    "archive.tar.JSON" = stem +:+ "." +:+ ext
    /\ stem <> "" /\ ext <> ""
    /\ Str.mem_char "." ext = false
    /\ Path.suffix (Path.make "/" ["r"; "archive.tar.JSON"]) = "." +:+ ext
    /\ Str.lower ("." +:+ ext) ∈ FILE_TYPES module_globals.
Proof.
  apply (qualifying_name_has_extension module_globals
           (Entry (Path.make "/" ["r"; "archive.tar.JSON"])
                  (IsFile (Readable "{}")))).
  - apply (bool_decide_unpack _). vm_compute. exact I.
  - reflexivity.
Defined.
